(** * Child speech depression detection: the audio-to-decision pipeline

    A shallow embedding of [src/app.py].  The script is a Streamlit page:
    every interaction re-runs it from top to bottom against a session
    state that survives between runs.  One run is modelled as a function
    from the session state and the inputs of the run (the uploaded file,
    the clock, the slider) to the new session state and the ordered list
    of things the run put on the page.

    Numbers.  The probabilities and the confidence are IEEE binary64
    floats in the source ([numpy.float64]).  A float is modelled by the
    rational it denotes, and every arithmetic operation of the script by
    the exact operation followed by rounding to the nearest double, ties
    to even ([Py.double]); [round(x, 2)] is NumPy's: multiply by 100,
    round to the nearest integer, divide by 100.  Infinities and NaN are
    not modelled, and nothing here gets near the largest double.
    Equalities between numbers are stated with [==] ([Qeq]).  Raw class
    labels are integers.

    The audio library and the classifier are not part of the script:
    the loader is modelled from its contract, the cepstral analysis and
    the classifier are parameters of the development.  The script as a
    whole is modelled twice over the same steps: [run_in] for any
    surroundings, in which the classifier and the report file may fail,
    and [run] for the surroundings in which they do not. *)

From Stdlib Require Import ZArith QArith Qround Qabs Qpower String DecimalString List Bool Lia Lqa.
From Stdlib Require Import PrimFloat FloatOps SpecFloat Uint63.
Import ListNotations.

Local Open Scope Z_scope.
Local Open Scope Q_scope.

(** ** Python primitives used by the script *)

Module Py.

(** Outcome of a statement that may raise: the value, or the message of
    the exception. *)
Inductive result (A : Type) : Type :=
| Ok (a : A)
| Raise (exc : string).
Arguments Ok {A} a.
Arguments Raise {A} exc.

Definition bind {A B : Type} (r : result A) (k : A -> result B) : result B :=
  match r with
  | Ok a => k a
  | Raise e => Raise e
  end.

(** [xs[i]]: the element, or IndexError. *)
Definition index {A : Type} (xs : list A) (i : nat) : result A :=
  match nth_error xs i with
  | Some a => Ok a
  | None => Raise "index out of range"
  end.

(** Nearest integer, ties to the even one. *)
Definition rint (x : Q) : Z :=
  let f := Qfloor x in
  match Qcompare (x - inject_Z f) (1 # 2) with
  | Lt => f
  | Gt => (f + 1)%Z
  | Eq => if Z.even f then f else (f + 1)%Z
  end.

(** [floor(log2 |x|)] for [x <> 0]. *)
Definition ilog2 (x : Q) : Z :=
  let e := (Z.log2 (Z.abs (Qnum x)) - Z.log2 (Zpos (Qden x)))%Z in
  if Qle_bool (2 ^ e) (Qabs x) then e else (e - 1)%Z.

(** The double nearest to [x], ties to the even mantissa: 53 bits of
    mantissa at the exponent of [x], or at the least exponent for a
    subnormal [x]. *)
Definition double (x : Q) : Q :=
  let e := Z.max (ilog2 x) (-1022) in
  let ulp := 2 ^ (e - 52) in
  inject_Z (rint (x / ulp)) * ulp.

(** [x * y], [x - y] and [x / y] on floats. *)
Definition mul (x y : Q) : Q := double (x * y).
Definition sub (x y : Q) : Q := double (x - y).
Definition div (x y : Q) : Q := double (x / y).

(** [round(x, ndigits)] of a [numpy.float64], for [ndigits >= 0]:
    [rint(x * 10**ndigits) / 10**ndigits]. *)
Definition round (x : Q) (ndigits : nat) : Q :=
  let scale := inject_Z (10 ^ Z.of_nat ndigits) in
  div (inject_Z (rint (mul x scale))) scale.

(** [xs[::-1]]: a reversed copy. *)
Definition reversed {A : Type} (xs : list A) : list A := rev xs.

(** [enumerate(xs)], counting from [start]. *)
Fixpoint enumerate_from {A : Type} (start : nat) (xs : list A) : list (nat * A) :=
  match xs with
  | [] => []
  | x :: rest => (start, x) :: enumerate_from (S start) rest
  end.

Definition enumerate {A : Type} (xs : list A) : list (nat * A) :=
  enumerate_from 0 xs.

(** [a.mean()] of a one-dimensional array. *)
Definition mean (row : list Q) : Q :=
  fold_right Qplus 0 row / inject_Z (Z.of_nat (length row)).

End Py.

(** ** The same arithmetic on the machine's doubles

    Primitive floats are IEEE binary64.  They serve to check [Py.double]
    and the operations built on it against the hardware on given
    inputs. *)

Module Float64.

(** The rational a finite double denotes. *)
Definition value (f : float) : Q :=
  match Prim2SF f with
  | S754_finite s m e =>
      (if s then - inject_Z (Zpos m) else inject_Z (Zpos m)) * 2 ^ e
  | _ => 0
  end.

(** The double [n / d] of two small integers, as a decimal literal with
    that value is read. *)
Definition ratio (n d : Z) : float :=
  PrimFloat.div (of_uint63 (Uint63.of_Z n)) (of_uint63 (Uint63.of_Z d)).

(** [rint] for [0 <= f < 2^52]: adding and taking away [2^52] rounds to
    the nearest integer, ties to even. *)
Definition rint (f : float) : float :=
  let two52 := of_uint63 (Uint63.of_Z (2 ^ 52)) in
  PrimFloat.sub (PrimFloat.add f two52) two52.

(** Line 136, [round(p * 100, 2)], and line 154, [100 - confidence]. *)
Definition confidence (p : float) : float :=
  let hundred := ratio 100 1 in
  PrimFloat.div (rint (PrimFloat.mul (PrimFloat.mul p hundred) hundred)) hundred.

Definition complement (confidence : float) : float :=
  PrimFloat.sub (ratio 100 1) confidence.

(** Probabilities to check at, as numerator and denominator. *)
Definition samples : list (Z * Z) :=
  [(20005, 100000); (804, 10000); (9196, 10000); (3, 10); (7, 10);
   (2, 10); (8, 10); (95, 100); (1, 3); (2, 3); (12345, 100000);
   (99995, 100000); (5, 1000); (0, 1); (1, 1)]%Z.

End Float64.

(** ** The audio library *)

Module Librosa.

(** A decoded waveform: its samples and the sample rate its container
    declares. *)
Record clip : Type := {
  clip_samples : list Q;
  clip_sr : Z
}.

(** An uploaded file, seen through its decoder: bytes that do not
    decode (with the decoder's message), or a waveform. *)
Inductive upload : Type :=
| Undecodable (exc : string)
| Wav (c : clip).

(** [int(t * sr)]: a time in seconds as a number of samples. *)
Definition frames (t : Q) (sr : Z) : nat :=
  Z.to_nat (Qfloor (t * inject_Z sr)).

(** Modelled from the spec: [librosa.load(file, sr=None, offset, duration)]
    is library code outside [src/].  The spec's AudioLoader decodes at
    the native rate and returns the window of [duration] seconds that
    starts [offset] seconds into the clip, or the samples that are there
    when the clip is shorter; bytes that are no waveform are a decode
    error. *)
Definition load (file : upload) (offset duration : Q) : Py.result (list Q * Z) :=
  match file with
  | Undecodable exc => Py.Raise exc
  | Wav c =>
      let sr_native := clip_sr c in
      Py.Ok (firstn (frames duration sr_native)
               (skipn (frames offset sr_native) (clip_samples c)),
             sr_native)
  end.

End Librosa.

(** ** The page *)

Import Librosa.

Local Open Scope string_scope.

(** The classifier's input: a two-dimensional array (one row per sample
    to classify). *)
Definition features : Type := list (list Q).

(** [st.session_state]: the key [history] is absent in a fresh session. *)
Record session_state : Type := {
  history : option (list string)
}.

Definition fresh_session : session_state := {| history := None |}.

(** Lines 71-72: the list the script works on, empty when the key is not
    there yet. *)
Definition session_history (s : session_state) : list string :=
  match history s with
  | None => []
  | Some h => h
  end.

(** What one run does that is visible outside the script, in order: the
    widgets it renders and the calls it makes to the classifier.  A
    template with a hole for a number keeps the number ([ResultCard]);
    static headings and style sheets are left out. *)
Inductive event : Type :=
| Audio (file : upload)                                  (* st.audio *)
| StError (msg : string)                                 (* st.error *)
| WaveformPlot (y : list Q)                               (* st.pyplot(fig) *)
| MelSpectrogramPlot (y : list Q) (sr : Z)                (* st.pyplot(fig2) *)
| Predict (x : features)                                 (* model.predict *)
| PredictProba (x : features)                            (* model.predict_proba *)
| ResultCard (heading advice : string) (confidence : Q)  (* st.markdown of the result *)
| DownloadButton (file_name : string) (pdf : list string)
| StWrite (line : string)                                (* st.write *)
| Image (path : string)                                  (* st.image *)
| Slider (lo hi : Z)                                     (* st.slider *)
| Message (kind text : string)                           (* st.success, st.info, ... *)
| Balloons
| Snow.

(** A step of the script: it reads and updates the history list, adds to
    the page, and returns a value or raises. *)
Definition script (A : Type) : Type :=
  list string -> list event * list string * Py.result A.

Definition ret {A : Type} (a : A) : script A :=
  fun h => ([], h, Py.Ok a).

Definition seq {A B : Type} (m : script A) (k : A -> script B) : script B :=
  fun h =>
    match m h with
    | (out1, h1, Py.Ok a) =>
        match k a h1 with
        | (out2, h2, r) => ((out1 ++ out2)%list, h2, r)
        end
    | (out1, h1, Py.Raise exc) => (out1, h1, Py.Raise exc)
    end.

Definition emit (e : event) : script unit :=
  fun h => ([e], h, Py.Ok tt).

Definition lift {A : Type} (r : Py.result A) : script A :=
  fun h => ([], h, r).

Definition get_history : script (list string) :=
  fun h => ([], h, Py.Ok h).

(** [st.session_state.history.append(entry)] *)
Definition history_append (entry : string) : script unit :=
  fun h => ([], (h ++ [entry])%list, Py.Ok tt).

Fixpoint for_each {A : Type} (xs : list A) (body : A -> script unit) : script unit :=
  match xs with
  | [] => ret tt
  | x :: rest => seq (body x) (fun _ => for_each rest body)
  end.

Notation "x <- m ;; k" := (seq m (fun x => k))
  (at level 61, m at next level, right associativity).
Notation "m ;;; k" := (seq m (fun _ => k))
  (at level 61, right associativity).

(** [str(n)] of a non-negative integer. *)
Definition str_nat (n : nat) : string :=
  DecimalString.NilZero.string_of_uint (Nat.to_uint n).

Definition newline : string := String (Ascii.ascii_of_nat 10) EmptyString.

(** The inputs of one run: the uploaded file if there is one, the clock,
    and the position of the mood slider. *)
Record run_input : Type := {
  uploaded_file : option upload;
  now : string;
  rating : Z
}.

(** What lies outside the script and may fail in a run: the two calls to
    the classifier, writing the report to its file ([pdf.output], line
    105) and opening that file again (line 161). *)
Record environment : Type := {
  env_predict : features -> Py.result (list Z);
  env_predict_proba : features -> Py.result (list (list Q));
  env_pdf_output : string -> list string -> Py.result unit;
  env_open : string -> Py.result unit
}.

(** ** A concrete environment for the scenarios *)

Module Scenario.

(** How Python prints a float that is a whole number of hundredths:
    [70.0], [29.45], [5.0]. *)
Definition float_str (x : Q) : string :=
  let n := Py.rint (x * 100) in
  let a := Z.abs n in
  let whole := Z.to_nat (a / 100) in
  let frac := Z.to_nat (a mod 100) in
  (if (n <? 0)%Z then "-" else "") ++ str_nat whole ++ "." ++
  (if (frac mod 10 =? 0)%nat then str_nat (frac / 10)
   else if (frac <? 10)%nat then "0" ++ str_nat frac
   else str_nat frac).

(** A stand-in for the cepstral analysis with the shape of the real
    one: [n] rows, one column per sample, and an error on an empty
    buffer. *)
Definition stub_mfcc (y : list Q) (sr : Z) (n : nat)
  : Py.result (list (list Q)) :=
  match y with
  | [] => Py.Raise "empty signal"
  | _ :: _ => Py.Ok (repeat y n)
  end.

(** A classifier that answers the same for every input. *)
Definition constant_predict (raw : Z) : features -> list Z :=
  fun _ => [raw].

Definition constant_predict_proba (proba : list Q) : features -> list (list Q) :=
  fun _ => [proba].

(** Five seconds of silence at 22050 Hz. *)
Definition five_seconds : clip :=
  {| clip_samples := repeat 0 (Z.to_nat 110250); clip_sr := 22050 |}.

(** Five seconds at 4 Hz. *)
Definition slow_clip : clip :=
  {| clip_samples :=
       [0; 1; 0; -(1); 0; 1; 0; -(1); 0; 1; 0; -(1); 0; 1; 0; -(1); 0; 1; 0; -(1)];
     clip_sr := 4 |}.

(** A quarter of a second at 4 Hz: nothing is left after the offset. *)
Definition short_clip : clip :=
  {| clip_samples := [1]; clip_sr := 4 |}.

Definition upload_of (c : clip) : run_input :=
  {| uploaded_file := Some (Wav c); now := "2024-05-01 10:30:00"; rating := 3 |}.

(** Five seconds at 4 Hz, all samples positive. *)
Definition loud_clip : clip :=
  {| clip_samples := repeat 1 20; clip_sr := 4 |}.

(** A classifier that looks at its input: label 1 with probabilities
    [0.2, 0.8] when the first feature is positive, label 0 with
    [0.7, 0.3] otherwise. *)
Definition positive_first (x : features) : bool :=
  negb (Qle_bool (hd 0 (hd [] x)) 0).

Definition threshold_predict : features -> list Z :=
  fun x => [if positive_first x then 1%Z else 0%Z].

Definition threshold_predict_proba : features -> list (list Q) :=
  fun x => [if positive_first x
            then [Py.double (2 # 10); Py.double (8 # 10)]
            else [Py.double (7 # 10); Py.double (3 # 10)]].

(** Surroundings in which the report cannot be written: its name is
    taken by a directory. *)
Definition report_is_a_directory (raw : Z) (proba : list Q) : environment :=
  {| env_predict := fun _ => Py.Ok [raw];
     env_predict_proba := fun _ => Py.Ok [proba];
     env_pdf_output := fun _ _ => Py.Raise "Is a directory: 'depression_report.pdf'";
     env_open := fun _ => Py.Ok tt |}.

(** Surroundings in which the classifier rejects its input. *)
Definition classifier_rejects : environment :=
  {| env_predict := fun _ => Py.Raise "X has 13 features, but the model is expecting 40";
     env_predict_proba := fun _ => Py.Ok [[Py.double (2 # 10); Py.double (8 # 10)]];
     env_pdf_output := fun _ _ => Py.Ok tt;
     env_open := fun _ => Py.Ok tt |}.

End Scenario.

Section App.

(** [str(x)] of a float, as an f-string inserts it. *)
Variable float_repr : Q -> string.

(** [librosa.feature.mfcc(y=y, sr=sr, n_mfcc=n)]: one row per
    coefficient, one column per time frame; it may raise. *)
Variable mfcc : list Q -> Z -> nat -> Py.result (list (list Q)).

(** The classifier loaded from [depression_model.pkl]. *)
Variable model_predict : features -> list Z.
Variable model_predict_proba : features -> list (list Q).

(** [extract_features(file)], lines 78-85.  [mfcc.mean(axis=1)] is the
    mean of each row; [.reshape(1, -1)] makes it the single row of a
    two-dimensional array.  The three [None]s of the [except] branch are
    one [None]. *)
Definition extract_features (file : upload)
  : script (option (features * list Q * Z)) :=
  match
    Py.bind (Librosa.load file (1 # 2) 3) (fun '(y, sr) =>
    Py.bind (mfcc y sr 13) (fun m =>
    Py.Ok ([map Py.mean m], y, sr)))
  with
  | Py.Ok r => ret (Some r)
  | Py.Raise e => emit (StError ("Audio Error: " ++ e)) ;;; ret None
  end.

(** [generate_pdf_report(prediction_label, confidence)], lines 88-106:
    the file name, and the text cells written to the page of the
    document; [now] is the clock reading.  Writing the document to its
    file is the caller's step here, [env_pdf_output]. *)
Definition generate_pdf_report (now : string) (prediction_label : string)
    (confidence : Q) : string * list string :=
  let advice :=
    if String.eqb prediction_label "Depressed"
    then "Please consult a professional if this is a real concern."
    else "Voice sounds healthy. Keep monitoring regularly." in
  ("depression_report.pdf",
   [ "Child Speech Depression Detection Report";
     "Date & Time: " ++ now;
     "Prediction Result: " ++ prediction_label;
     "Confidence Score: " ++ float_repr confidence ++ "%";
     "Note:" ++ newline ++ advice ]).

(** Line 136. *)
Definition confidence_score (proba : list Q) : Py.result Q :=
  if (1 <? List.length proba)%nat
  then Py.bind (Py.index proba 1) (fun p => Py.Ok (Py.round (Py.mul p 100) 2))
  else Py.bind (Py.index proba 0) (fun p => Py.Ok (Py.round (Py.mul p 100) 2)).

(** Line 137. *)
Definition result_label (raw : Z) : string :=
  if (raw =? 1)%Z then "Depressed" else "Not Depressed".

(** Lines 140-157. *)
Definition result_display (raw : Z) (confidence_score : Q) : script unit :=
  if (raw =? 1)%Z then
    emit (ResultCard "⚠️ Depression Detected"
            "Please consult a professional if this is a real concern."
            confidence_score) ;;;
    history_append ("Depressed (" ++ float_repr confidence_score ++ "%)")
  else
    emit (ResultCard "✅ No Depression Detected"
            "The voice sounds healthy and normal."
            (Py.sub 100 confidence_score)) ;;;
    history_append
      ("Not Depressed (" ++ float_repr (Py.sub 100 confidence_score) ++ "%)").

(** Lines 166-167. *)
Definition history_display : script unit :=
  h <- get_history ;;
  for_each (Py.enumerate (Py.reversed h))
    (fun '(i, entry) => emit (StWrite (str_nat (i + 1) ++ ". " ++ entry))).

(** Lines 171-188. *)
Definition teddy (raw : Z) : script unit :=
  if (raw =? 1)%Z then emit (Image "sad_teddy.png")
  else emit (Image "happy_teddy.png").

(** Lines 192-207. *)
Definition mood_rating (rating : Z) : script unit :=
  emit (Slider 1 5) ;;;
  if (rating =? 5)%Z then
    emit (Message "success" "🥳 You're shining bright today! Keep it up!") ;;;
    emit Balloons
  else if (rating =? 4)%Z then
    emit (Message "info" "😊 You seem to be in a good mood! Awesome!") ;;;
    emit Balloons
  else if (rating =? 3)%Z then
    emit (Message "warning"
            "😌 It's okay to feel neutral. Maybe do something you love?")
  else if (rating =? 2)%Z then
    emit (Message "error" "😕 Hang in there. Talk to someone you trust 💙") ;;;
    emit Snow
  else
    emit (Message "error" "😢 It's okay to feel sad. You're never alone 💖") ;;;
    emit Snow.

(** The surroundings in which nothing outside the script fails: the
    classifier answers [model_predict] and [model_predict_proba], and the
    report is written and read back. *)
Definition reliable : environment :=
  {| env_predict := fun x => Py.Ok (model_predict x);
     env_predict_proba := fun x => Py.Ok (model_predict_proba x);
     env_pdf_output := fun _ _ => Py.Ok tt;
     env_open := fun _ => Py.Ok tt |}.

(** Lines 109-207, the prediction block, in given surroundings. *)
Definition prediction_block_in (env : environment) (inp : run_input)
  : script unit :=
  match uploaded_file inp with
  | None => ret tt
  | Some file =>
      emit (Audio file) ;;;
      extracted <- extract_features file ;;
      match extracted with
      | None => ret tt
      | Some (x, y, sr) =>
          emit (WaveformPlot y) ;;;
          emit (MelSpectrogramPlot y sr) ;;;
          emit (Predict x) ;;;
          prediction <- lift (env_predict env x) ;;
          emit (PredictProba x) ;;;
          probas <- lift (env_predict_proba env x) ;;
          proba <- lift (Py.index probas 0) ;;
          score <- lift (confidence_score proba) ;;
          raw <- lift (Py.index prediction 0) ;;
          let label := result_label raw in
          result_display raw score ;;;
          (let '(report_path, pdf) := generate_pdf_report (now inp) label score in
           lift (env_pdf_output env report_path pdf) ;;;
           lift (env_open env report_path) ;;;
           emit (DownloadButton "depression_report.pdf" pdf)) ;;;
          history_display ;;;
          teddy raw ;;;
          mood_rating (rating inp)
      end
  end.

(** The prediction block when nothing outside the script fails. *)
Definition prediction_block (inp : run_input) : script unit :=
  prediction_block_in reliable inp.

(** One run of the script: lines 71-72 give a fresh session its empty
    history, then the prediction block runs.  The result is the session
    state the run leaves, what it put on the page, and how it ended. *)
Record run_result : Type := {
  state_after : session_state;
  page : list event;
  outcome : Py.result unit
}.

Definition run_in (env : environment) (s : session_state) (inp : run_input)
  : run_result :=
  match prediction_block_in env inp (session_history s) with
  | (out, h, r) =>
      {| state_after := {| history := Some h |}; page := out; outcome := r |}
  end.

Definition run (s : session_state) (inp : run_input) : run_result :=
  match prediction_block inp (session_history s) with
  | (out, h, r) =>
      {| state_after := {| history := Some h |}; page := out; outcome := r |}
  end.

(** A session: the runs one after the other on the same session state. *)
Fixpoint session (s : session_state) (inputs : list run_input)
  : session_state * list run_result :=
  match inputs with
  | [] => (s, [])
  | inp :: rest =>
      let r := run s inp in
      let '(s', rs) := session (state_after r) rest in
      (s', r :: rs)
  end.

(** ** Notions used to state the properties *)

(** The file decodes, the analysis returns, and the classifier answers
    [raw] and [proba] for the sample built from it. *)
Definition classified (file : upload) (raw : Z) (proba : list Q) : Prop :=
  exists y sr m rest rest',
    Librosa.load file (1 # 2) 3 = Py.Ok (y, sr) /\
    mfcc y sr 13 = Py.Ok m /\
    model_predict [map Py.mean m] = raw :: rest /\
    model_predict_proba [map Py.mean m] = proba :: rest'.

(** Decoding raises, or it returns and the analysis raises; [exc] is the
    message of the exception. *)
Definition extraction_fails (file : upload) (exc : string) : Prop :=
  Librosa.load file (1 # 2) 3 = Py.Raise exc \/
  exists y sr,
    Librosa.load file (1 # 2) 3 = Py.Ok (y, sr) /\
    mfcc y sr 13 = Py.Raise exc.

(** The confidences the page shows in its result cards. *)
Definition shown_confidence (out : list event) : list Q :=
  flat_map (fun e => match e with
                     | ResultCard _ _ c => [c]
                     | _ => []
                     end) out.

(** The advisory texts the page shows in its result cards. *)
Definition shown_advice (out : list event) : list string :=
  flat_map (fun e => match e with
                     | ResultCard _ advice _ => [advice]
                     | _ => []
                     end) out.

(** The documents the page offers for download. *)
Definition offered_reports (out : list event) : list (list string) :=
  flat_map (fun e => match e with
                     | DownloadButton _ pdf => [pdf]
                     | _ => []
                     end) out.

(** The lines written by [st.write]. *)
Definition written_lines (out : list event) : list string :=
  flat_map (fun e => match e with
                     | StWrite line => [line]
                     | _ => []
                     end) out.

(** The classifier calls of a run. *)
Definition classifier_calls (out : list event) : list event :=
  filter (fun e => match e with
                   | Predict _ | PredictProba _ => true
                   | _ => false
                   end) out.

(** The advisory text of the decision display for a raw label. *)
Definition display_advice (raw : Z) : list string :=
  shown_advice (fst (fst (result_display raw 0 []))).

(** The advisory text of the report for a label: what follows the
    heading of the note, the last cell of the document. *)
Definition report_advice (label : string) : list string :=
  match rev (snd (generate_pdf_report "" label 0)) with
  | note :: _ => [String.substring 6 (String.length note - 6) note]
  | [] => []
  end.

(** A run made a decision: it shows a result card. *)
Definition decided (r : run_result) : bool :=
  match shown_confidence (page r) with
  | [] => false
  | _ :: _ => true
  end.

(** The numbered lines of the history display for a stored history. *)
Definition numbered_newest_first (h : list string) : list string :=
  map (fun '(i, entry) => str_nat (i + 1) ++ ". " ++ entry)
      (Py.enumerate (rev h)).

(** Widgets that carry no decision: pictures, the slider and its
    messages. *)
Definition plain (e : event) : bool :=
  match e with
  | Image _ | Slider _ _ | Message _ _ | Balloons | Snow => true
  | _ => false
  end.

(** The binade of a number: [2^e <= |x| < 2^(e+1)]. *)
Definition binade (x : Q) (e : Z) : Prop :=
  2 ^ e <= Qabs x /\ Qabs x < 2 ^ (e + 1).

(** The exponent a number is rounded at. *)
Definition expo (x : Q) : Z := Z.max (Py.ilog2 x) (-1022).

(** The entry a decision leaves in the history: the text of line 148 for
    raw label 1, of line 157 for any other. *)
Definition stored_entry (raw : Z) (score : Q) : string :=
  if (raw =? 1)%Z
  then "Depressed (" ++ float_repr score ++ "%)"
  else "Not Depressed (" ++ float_repr (Py.sub 100 score) ++ "%)".

(** What there is to decide in a run, told from its input alone: a raw
    label and a confidence when the upload is classified and the
    confidence is computed, nothing otherwise. *)
Definition decision_of (inp : run_input) (d : option (Z * Q)) : Prop :=
  match d with
  | Some (raw, score) =>
      exists file proba,
        uploaded_file inp = Some file /\
        classified file raw proba /\
        confidence_score proba = Py.Ok score
  | None =>
      ~ exists file raw proba score,
          uploaded_file inp = Some file /\
          classified file raw proba /\
          confidence_score proba = Py.Ok score
  end.

(** The entries of a sequence of decisions, in their order. *)
Definition entries_of (plan : list (option (Z * Q))) : list string :=
  flat_map (fun d => match d with
                     | Some (raw, score) => [stored_entry raw score]
                     | None => []
                     end) plan.

Definition is_decision (d : option (Z * Q)) : bool :=
  match d with
  | Some _ => true
  | None => false
  end.

(** The pictures a page shows. *)
Definition shown_images (out : list event) : list string :=
  flat_map (fun e => match e with
                     | Image path => [path]
                     | _ => []
                     end) out.

(** The headings of the result cards of a page. *)
Definition shown_headings (out : list event) : list string :=
  flat_map (fun e => match e with
                     | ResultCard heading _ _ => [heading]
                     | _ => []
                     end) out.

(** The kinds of the messages of a page. *)
Definition message_kinds (out : list event) : list string :=
  flat_map (fun e => match e with
                     | Message kind _ => [kind]
                     | _ => []
                     end) out.

(** What the mood section puts on the page for a position of the
    slider. *)
Definition mood_events (rating : Z) : list event :=
  fst (fst (mood_rating rating [])).

(** The form of a stored entry: one of the two labels, then a number in
    brackets with a percent sign. *)
Definition entry_form (entry : string) : Prop :=
  exists c : Q,
    entry = "Depressed (" ++ float_repr c ++ "%)" \/
    entry = "Not Depressed (" ++ float_repr c ++ "%)".

(** ** Rounding *)

Lemma inject_Z_minus (a b : Z) : inject_Z (a - b) = inject_Z a - inject_Z b.
Proof.
  unfold Z.sub, Qminus. rewrite inject_Z_plus, inject_Z_opp. reflexivity.
Qed.

Lemma rint_comp (x y : Q) : x == y -> Py.rint x = Py.rint y.
Proof.
  intros E. unfold Py.rint.
  assert (F : Qfloor x = Qfloor y) by (apply Qfloor_comp; exact E).
  rewrite F.
  assert (C : Qcompare (x - inject_Z (Qfloor y)) (1 # 2)
              = Qcompare (y - inject_Z (Qfloor y)) (1 # 2)).
  { apply Qcompare_comp; [rewrite E|]; reflexivity. }
  cbv zeta. rewrite C. reflexivity.
Qed.

Lemma floor_gap (x : Q) :
  0 <= x - inject_Z (Qfloor x) /\ x - inject_Z (Qfloor x) < 1.
Proof.
  pose proof (Qfloor_le x) as L. pose proof (Qlt_floor x) as U.
  rewrite inject_Z_plus in U. change (inject_Z 1) with 1 in U.
  split; lra.
Qed.

Lemma rint_near (x : Q) :
  x - (1 # 2) <= inject_Z (Py.rint x) /\ inject_Z (Py.rint x) <= x + (1 # 2).
Proof.
  unfold Py.rint. cbv zeta.
  destruct (floor_gap x) as [L U].
  set (f := Qfloor x) in *.
  destruct (Qcompare (x - inject_Z f) (1 # 2)) eqn:C.
  - apply Qeq_alt in C.
    destruct (Z.even f); [|rewrite inject_Z_plus; change (inject_Z 1) with 1];
      split; lra.
  - apply Qlt_alt in C. split; lra.
  - apply Qgt_alt in C. rewrite inject_Z_plus. change (inject_Z 1) with 1.
    split; lra.
Qed.

Lemma rint_lower (x : Q) (n : Z) : inject_Z n <= x -> (n <= Py.rint x)%Z.
Proof.
  intros H.
  assert (F : (n <= Qfloor x)%Z).
  { rewrite <- (Qfloor_Z n). apply Qfloor_resp_le. exact H. }
  unfold Py.rint. cbv zeta.
  destruct (Qcompare _ _); [destruct (Z.even _)| |]; lia.
Qed.

Lemma rint_upper (x : Q) (n : Z) : x <= inject_Z n -> (Py.rint x <= n)%Z.
Proof.
  intros H.
  assert (F : (Qfloor x <= n)%Z).
  { rewrite <- (Qfloor_Z n). apply Qfloor_resp_le. exact H. }
  destruct (Z.eq_dec (Qfloor x) n) as [E | N].
  - (* x = n exactly: the fractional part is 0 *)
    unfold Py.rint. cbv zeta.
    pose proof (Qfloor_le x) as L. rewrite E in *.
    destruct (Qcompare (x - inject_Z n) (1 # 2)) eqn:C.
    + apply Qeq_alt in C. lra.
    + lia.
    + apply Qgt_alt in C. lra.
  - unfold Py.rint. cbv zeta.
    destruct (Qcompare _ _); [destruct (Z.even _)| |]; lia.
Qed.

Lemma rint_spec (x : Q) :
  (x - (1 # 2) < inject_Z (Py.rint x) /\ inject_Z (Py.rint x) < x + (1 # 2)) \/
  ((inject_Z (Py.rint x) == x + (1 # 2) \/ inject_Z (Py.rint x) == x - (1 # 2)) /\
   Z.even (Py.rint x) = true).
Proof.
  unfold Py.rint. cbv zeta.
  destruct (floor_gap x) as [L U].
  set (f := Qfloor x) in *.
  destruct (Qcompare (x - inject_Z f) (1 # 2)) eqn:C.
  - apply Qeq_alt in C. right.
    destruct (Z.even f) eqn:Ev.
    + split; [right; lra | exact Ev].
    + split; [left; rewrite inject_Z_plus; change (inject_Z 1) with 1; lra|].
      rewrite Z.even_add, Ev. reflexivity.
  - apply Qlt_alt in C. left. split; lra.
  - apply Qgt_alt in C. left. rewrite inject_Z_plus. change (inject_Z 1) with 1.
    split; lra.
Qed.

Lemma rint_unique (x : Q) (k : Z) :
  (x - (1 # 2) < inject_Z k /\ inject_Z k < x + (1 # 2)) \/
  ((inject_Z k == x + (1 # 2) \/ inject_Z k == x - (1 # 2)) /\
   Z.even k = true) ->
  Py.rint x = k.
Proof.
  intros H. unfold Py.rint. cbv zeta.
  destruct (floor_gap x) as [L U].
  set (f := Qfloor x) in *.
  assert (K : k = f \/ k = (f + 1)%Z).
  { assert (A : inject_Z (f - 1) < inject_Z k).
    { rewrite inject_Z_minus. change (inject_Z 1) with 1.
      destruct H as [[H1 H2] | [[H1 | H1] _]]; lra. }
    assert (B : inject_Z k < inject_Z (f + 2)).
    { rewrite inject_Z_plus. change (inject_Z 2) with 2.
      destruct H as [[H1 H2] | [[H1 | H1] _]]; lra. }
    rewrite <- Zlt_Qlt in A, B. lia. }
  destruct K as [-> | ->].
  - destruct (Qcompare (x - inject_Z f) (1 # 2)) eqn:C.
    + apply Qeq_alt in C.
      destruct H as [[H1 H2] | [_ Ev]]; [lra | rewrite Ev; reflexivity].
    + reflexivity.
    + apply Qgt_alt in C. destruct H as [[H1 H2] | [[H1 | H1] _]]; lra.
  - rewrite inject_Z_plus in H. change (inject_Z 1) with 1 in H.
    destruct (Qcompare (x - inject_Z f) (1 # 2)) eqn:C.
    + apply Qeq_alt in C.
      destruct H as [[H1 H2] | [_ Ev]]; [lra|].
      rewrite Z.even_add in Ev. destruct (Z.even f); [discriminate Ev | reflexivity].
    + apply Qlt_alt in C. destruct H as [[H1 H2] | [[H1 | H1] _]]; lra.
    + reflexivity.
Qed.

Lemma rint_reflect (n : Z) (x : Q) :
  Z.even n = true -> Py.rint (inject_Z n - x) = (n - Py.rint x)%Z.
Proof.
  intros En. apply rint_unique.
  rewrite inject_Z_minus.
  destruct (rint_spec x) as [[H1 H2] | [[H1 | H1] Ev]].
  - left. split; lra.
  - right. split; [right; lra|]. rewrite Z.even_sub, En, Ev. reflexivity.
  - right. split; [left; lra|]. rewrite Z.even_sub, En, Ev. reflexivity.
Qed.

Lemma rint_monotone (x y : Q) : x <= y -> (Py.rint x <= Py.rint y)%Z.
Proof.
  intros Hxy.
  destruct (Z_lt_le_dec (Py.rint y) (Py.rint x)) as [Lt | Le]; [exfalso | exact Le].
  assert (S : inject_Z (Py.rint y) + 1 <= inject_Z (Py.rint x)).
  { assert (Z1 : (Py.rint y + 1 <= Py.rint x)%Z) by lia.
    rewrite Zle_Qle, inject_Z_plus in Z1. exact Z1. }
  destruct (rint_spec x) as [[X1 X2] | [[X1 | X1] Ex]];
    destruct (rint_spec y) as [[Y1 Y2] | [[Y1 | Y1] Ey]]; try lra.
  (* both at a tie, one apart: they cannot both be even *)
  assert (E : Py.rint x = (Py.rint y + 1)%Z).
  { apply inject_Z_injective. rewrite inject_Z_plus. change (inject_Z 1) with 1. lra. }
  rewrite E, Z.even_add, Ey in Ex. discriminate Ex.
Qed.

Lemma pow2_pos (e : Z) : 0 < 2 ^ e.
Proof. apply Qpower_0_lt. reflexivity. Qed.

Lemma pow2_succ (e : Z) : 2 ^ (e + 1) == 2 * 2 ^ e.
Proof. rewrite Qpower_plus by discriminate. ring. Qed.

Lemma pow2_le (a b : Z) : (a <= b)%Z -> 2 ^ a <= 2 ^ b.
Proof. intros H. apply Qpower_le_compat_l; [exact H | discriminate]. Qed.

Lemma pow2_lt_inv (a b : Z) : 2 ^ a < 2 ^ b -> (a < b)%Z.
Proof. intros H. apply (Qpower_lt_compat_l_inv 2); [exact H | reflexivity]. Qed.

Lemma binade_unique (x : Q) (e e' : Z) : binade x e -> binade x e' -> e = e'.
Proof.
  intros [L U] [L' U'].
  assert (A : (e < e' + 1)%Z) by (apply pow2_lt_inv; eapply Qle_lt_trans; eassumption).
  assert (B : (e' < e + 1)%Z) by (apply pow2_lt_inv; eapply Qle_lt_trans; eassumption).
  lia.
Qed.

Lemma log2_bounds (n : Z) :
  (0 < n)%Z ->
  2 ^ Z.log2 n <= inject_Z n /\ inject_Z n < 2 * 2 ^ Z.log2 n.
Proof.
  intros Hn. destruct (Z.log2_spec n Hn) as [L U].
  pose proof (Z.log2_nonneg n) as P.
  rewrite <- pow2_succ.
  change 2 with (inject_Z 2).
  rewrite <- !Zpower_Qpower by lia.
  rewrite <- Zle_Qle, <- Zlt_Qlt. replace (Z.log2 n + 1)%Z with (Z.succ (Z.log2 n)) by lia.
  split; assumption.
Qed.

Lemma ilog2_spec (x : Q) : ~ x == 0 -> binade x (Py.ilog2 x).
Proof.
  intros Nz. unfold binade, Py.ilog2. cbv zeta.
  destruct x as [n d]. cbn [Qnum Qden].
  assert (Hn : (0 < Z.abs n)%Z).
  { destruct (Z.eq_dec n 0) as [-> | N]; [exfalso; apply Nz; reflexivity | lia]. }
  destruct (log2_bounds (Z.abs n) Hn) as [La Ua].
  destruct (log2_bounds (Zpos d) eq_refl) as [Lb Ub].
  set (a := Z.log2 (Z.abs n)) in *. set (b := Z.log2 (Zpos d)) in *.
  pose proof (pow2_pos a) as Pa. pose proof (pow2_pos b) as Pb.
  assert (X : Qabs (n # d) == inject_Z (Z.abs n) / inject_Z (Zpos d)).
  { unfold Qabs. rewrite (Qmake_Qdiv (Z.abs n) d). reflexivity. }
  assert (Dpos : 0 < inject_Z (Zpos d)) by reflexivity.
  set (N := inject_Z (Z.abs n)) in *. set (D := inject_Z (Zpos d)) in *.
  assert (E0 : 2 ^ (a - b) == 2 ^ a / 2 ^ b) by (apply Qpower_minus; discriminate).
  destruct (Qle_bool (2 ^ (a - b)) (Qabs (n # d))) eqn:T.
  - apply Qle_bool_iff in T. split; [exact T|].
    rewrite X, pow2_succ, E0.
    apply Qlt_shift_div_r; [exact Dpos|].
    assert (G : N * 2 ^ b < 2 * 2 ^ a * D).
    { apply Qlt_le_trans with (2 * 2 ^ a * 2 ^ b).
      - apply Qmult_lt_compat_r; assumption.
      - apply Qmult_le_l; [lra | exact Lb]. }
    assert (H : 2 * (2 ^ a / 2 ^ b) * D == (2 * 2 ^ a * D) / 2 ^ b) by (field; lra).
    rewrite H. apply Qlt_shift_div_l; [exact Pb | exact G].
  - assert (T' : Qabs (n # d) < 2 ^ (a - b)).
    { apply Qnot_le_lt. intros C. apply Qle_bool_iff in C. congruence. }
    replace (a - b - 1 + 1)%Z with (a - b)%Z by lia.
    split; [|exact T'].
    assert (E1 : 2 ^ (a - b - 1) == 2 ^ a / (2 * 2 ^ b)).
    { replace (a - b - 1)%Z with (a - (b + 1))%Z by lia.
      rewrite Qpower_minus by discriminate. rewrite pow2_succ. reflexivity. }
    rewrite E1, X.
    apply Qle_shift_div_r; [lra|].
    assert (H : N / D * (2 * 2 ^ b) == (N * (2 * 2 ^ b)) / D) by (field; lra).
    rewrite H. apply Qle_shift_div_l; [exact Dpos|].
    apply Qle_trans with (N * D).
    + apply Qmult_le_compat_r; lra.
    + apply Qmult_le_l; [lra | lra].
Qed.

Lemma rint_opp (x : Q) : Py.rint (- x) = (- Py.rint x)%Z.
Proof.
  rewrite (rint_comp (- x) (inject_Z 0 - x)) by (change (inject_Z 0) with 0; ring).
  rewrite rint_reflect by reflexivity. lia.
Qed.

Lemma rint_Z (n : Z) : Py.rint (inject_Z n) = n.
Proof.
  apply Z.le_antisymm; [apply rint_upper | apply rint_lower]; apply Qle_refl.
Qed.

Lemma double_unfold (x : Q) :
  Py.double x = inject_Z (Py.rint (x / 2 ^ (expo x - 52))) * 2 ^ (expo x - 52).
Proof. reflexivity. Qed.

Lemma ilog2_comp (x y : Q) : ~ x == 0 -> x == y -> Py.ilog2 x = Py.ilog2 y.
Proof.
  intros Nz E. apply (binade_unique x); [apply ilog2_spec; exact Nz|].
  assert (Ny : ~ y == 0) by (rewrite <- E; exact Nz).
  destruct (ilog2_spec y Ny) as [L U]. unfold binade. rewrite E. split; assumption.
Qed.

Lemma ilog2_opp (x : Q) : Py.ilog2 (- x) = Py.ilog2 x.
Proof.
  destruct (Qeq_dec x 0) as [Z0 | Nz].
  - destruct x as [n d]. unfold Qeq in Z0. cbn in Z0.
    assert (n = 0%Z) as -> by lia. reflexivity.
  - assert (Nz' : ~ - x == 0) by (intros C; apply Nz; lra).
    apply (binade_unique x); [|apply ilog2_spec; exact Nz].
    destruct (ilog2_spec (- x) Nz') as [L U].
    unfold binade. rewrite <- (Qabs_opp x). split; assumption.
Qed.

Lemma double_zero (x : Q) : x == 0 -> Py.double x == 0.
Proof.
  intros E. rewrite double_unfold.
  set (u := 2 ^ (expo x - 52)).
  rewrite (rint_comp (x / u) (inject_Z 0)).
  - rewrite rint_Z. ring.
  - rewrite E. change (inject_Z 0) with 0. unfold Qdiv. ring.
Qed.

Lemma double_comp (x y : Q) : x == y -> Py.double x == Py.double y.
Proof.
  intros E. destruct (Qeq_dec x 0) as [Z0 | Nz].
  - rewrite (double_zero x Z0), (double_zero y) by (rewrite <- E; exact Z0).
    reflexivity.
  - rewrite !double_unfold. unfold expo.
    rewrite <- (ilog2_comp x y Nz E).
    set (u := 2 ^ (Z.max (Py.ilog2 x) (-1022) - 52)).
    rewrite (rint_comp (x / u) (y / u)) by (rewrite E; reflexivity).
    reflexivity.
Qed.

Lemma double_opp (x : Q) : Py.double (- x) == - Py.double x.
Proof.
  rewrite !double_unfold. unfold expo. rewrite ilog2_opp.
  set (u := 2 ^ (Z.max (Py.ilog2 x) (-1022) - 52)).
  rewrite (rint_comp (- x / u) (- (x / u))) by (unfold Qdiv; ring).
  rewrite rint_opp, inject_Z_opp. ring.
Qed.

Lemma double_nonneg (x : Q) : 0 <= x -> 0 <= Py.double x.
Proof.
  intros H. rewrite double_unfold.
  pose proof (pow2_pos (expo x - 52)) as U.
  apply Qmult_le_0_compat; [|lra].
  change 0 with (inject_Z 0). rewrite <- Zle_Qle. apply rint_lower.
  change (inject_Z 0) with 0. apply Qle_shift_div_l; [exact U | lra].
Qed.

(** Half a unit in the last place bounds the error. *)
Lemma double_error (x : Q) :
  Qabs (Py.double x - x) <= 2 ^ (expo x - 53).
Proof.
  rewrite double_unfold.
  pose proof (pow2_pos (expo x - 52)) as U.
  assert (H : 2 ^ (expo x - 52) == 2 * 2 ^ (expo x - 53)).
  { rewrite <- pow2_succ. replace (expo x - 53 + 1)%Z with (expo x - 52)%Z by lia.
    reflexivity. }
  set (u := 2 ^ (expo x - 52)) in *. set (v := 2 ^ (expo x - 53)) in *.
  assert (X : x == x / u * u) by (field; lra).
  destruct (rint_near (x / u)) as [L R].
  set (q := x / u) in *.
  set (k := inject_Z (Py.rint q)) in *.
  assert (G : k * u - x == (k - q) * u) by (rewrite X at 1; ring).
  rewrite G.
  assert (Lo : - (1 # 2) * u <= (k - q) * u).
  { apply Qmult_le_compat_r; lra. }
  assert (Hi : (k - q) * u <= (1 # 2) * u).
  { apply Qmult_le_compat_r; lra. }
  apply Qabs_Qle_condition. split; lra.
Qed.

Lemma pow2_mult (a b : Z) : 2 ^ a * 2 ^ b == 2 ^ (a + b).
Proof. rewrite Qpower_plus by discriminate. reflexivity. Qed.

Lemma ilog2_mono (x y : Q) : 0 < x -> x <= y -> (Py.ilog2 x <= Py.ilog2 y)%Z.
Proof.
  intros Px Hxy.
  destruct (ilog2_spec x) as [Lx _]; [lra|].
  destruct (ilog2_spec y) as [_ Uy]; [lra|].
  rewrite Qabs_pos in Lx, Uy by lra.
  assert (H : (Py.ilog2 x < Py.ilog2 y + 1)%Z) by (apply pow2_lt_inv; lra).
  lia.
Qed.

Lemma expo_mono (x y : Q) : 0 < x -> x <= y -> (expo x <= expo y)%Z.
Proof.
  intros Px Hxy. pose proof (ilog2_mono x y Px Hxy). unfold expo. lia.
Qed.

Lemma pos_below_next_binade (x : Q) : 0 < x -> x < 2 ^ (expo x + 1).
Proof.
  intros Px. destruct (ilog2_spec x) as [_ U]; [lra|].
  rewrite Qabs_pos in U by lra.
  apply Qlt_le_trans with (2 ^ (Py.ilog2 x + 1)); [exact U|].
  apply pow2_le. unfold expo. lia.
Qed.

Lemma double_upper (x : Q) : 0 < x -> Py.double x <= 2 ^ (expo x + 1).
Proof.
  intros Px. rewrite double_unfold.
  pose proof (pow2_pos (expo x - 52)) as U.
  pose proof (pos_below_next_binade x Px) as B.
  assert (S : 2 ^ 53 * 2 ^ (expo x - 52) == 2 ^ (expo x + 1)).
  { rewrite pow2_mult. replace (53 + (expo x - 52))%Z with (expo x + 1)%Z by lia.
    reflexivity. }
  set (u := 2 ^ (expo x - 52)) in *.
  assert (K : (Py.rint (x / u) <= 2 ^ 53)%Z).
  { apply rint_upper. apply Qle_shift_div_r; [exact U|].
    change (inject_Z (2 ^ 53)) with (2 ^ 53). lra. }
  rewrite Zle_Qle in K. change (inject_Z (2 ^ 53)) with (2 ^ 53) in K.
  rewrite <- S. apply Qmult_le_compat_r; lra.
Qed.

Lemma double_lower (x : Q) :
  0 < x -> (-1022 <= Py.ilog2 x)%Z -> 2 ^ expo x <= Py.double x.
Proof.
  intros Px Normal. rewrite double_unfold.
  pose proof (pow2_pos (expo x - 52)) as U.
  destruct (ilog2_spec x) as [L _]; [lra|].
  rewrite Qabs_pos in L by lra.
  assert (Ex : expo x = Py.ilog2 x) by (unfold expo; lia).
  rewrite <- Ex in L.
  assert (S : 2 ^ 52 * 2 ^ (expo x - 52) == 2 ^ expo x).
  { rewrite pow2_mult. replace (52 + (expo x - 52))%Z with (expo x) by lia.
    reflexivity. }
  set (u := 2 ^ (expo x - 52)) in *.
  assert (K : (2 ^ 52 <= Py.rint (x / u))%Z).
  { apply rint_lower. apply Qle_shift_div_l; [exact U|].
    change (inject_Z (2 ^ 52)) with (2 ^ 52). lra. }
  rewrite Zle_Qle in K. change (inject_Z (2 ^ 52)) with (2 ^ 52) in K.
  rewrite <- S. apply Qmult_le_compat_r; lra.
Qed.

Lemma double_monotone_pos (x y : Q) :
  0 < x -> x <= y -> Py.double x <= Py.double y.
Proof.
  intros Px Hxy.
  pose proof (expo_mono x y Px Hxy) as He.
  destruct (Z.eq_dec (expo x) (expo y)) as [E | N].
  - rewrite !double_unfold. rewrite <- E.
    pose proof (pow2_pos (expo x - 52)) as U.
    set (u := 2 ^ (expo x - 52)) in *.
    assert (M : (Py.rint (x / u) <= Py.rint (y / u))%Z).
    { apply rint_monotone. apply Qmult_le_compat_r; [exact Hxy|].
      apply Qlt_le_weak. apply Qinv_lt_0_compat. exact U. }
    rewrite Zle_Qle in M. apply Qmult_le_compat_r; lra.
  - assert (Ny : (-1022 <= Py.ilog2 y)%Z) by (unfold expo in *; lia).
    apply Qle_trans with (2 ^ (expo x + 1)); [apply double_upper; exact Px|].
    apply Qle_trans with (2 ^ expo y); [apply pow2_le; lia|].
    apply double_lower; [lra | exact Ny].
Qed.

(** Rounding to a double keeps the order. *)
Lemma double_monotone (x y : Q) : x <= y -> Py.double x <= Py.double y.
Proof.
  intros Hxy.
  destruct (Qlt_le_dec 0 x) as [Px | Nx].
  - apply double_monotone_pos; assumption.
  - assert (Dx : Py.double x <= 0).
    { assert (H : 0 <= Py.double (- x)) by (apply double_nonneg; lra).
      rewrite double_opp in H. lra. }
    destruct (Qlt_le_dec y 0) as [Ny | Py0].
    + assert (H : Py.double (- y) <= Py.double (- x))
        by (apply double_monotone_pos; lra).
      rewrite !double_opp in H. lra.
    + pose proof (double_nonneg y Py0). lra.
Qed.

(** A number below [2^k], [k] in the normal range, is rounded with an
    error of at most [2^(k-54)]. *)
Lemma double_error_below (x : Q) (k : Z) :
  (-1021 <= k)%Z -> Qabs x < 2 ^ k ->
  Qabs (Py.double x - x) <= 2 ^ (k - 54).
Proof.
  intros Hk Hx.
  destruct (Qeq_dec x 0) as [Z0 | Nz].
  - rewrite (double_zero x Z0), Z0.
    assert (E : 0 - 0 == 0) by ring. rewrite E. cbn [Qabs Z.abs].
    apply Qlt_le_weak. apply pow2_pos.
  - apply Qle_trans with (2 ^ (expo x - 53)); [apply double_error|].
    apply pow2_le.
    destruct (ilog2_spec x Nz) as [L _].
    assert (H : (Py.ilog2 x < k)%Z) by (apply pow2_lt_inv; lra).
    unfold expo. lia.
Qed.

(** ** Percentages *)

Lemma double_0 : Py.double 0 == 0.
Proof. reflexivity. Qed.

Lemma double_100 : Py.double 100 == 100.
Proof. reflexivity. Qed.

Lemma double_10000 : Py.double 10000 == 10000.
Proof. reflexivity. Qed.

Lemma double_below (x c : Q) : Py.double c == c -> x <= c -> Py.double x <= c.
Proof.
  intros E H. apply Qle_trans with (Py.double c).
  - apply double_monotone. exact H.
  - rewrite E. apply Qle_refl.
Qed.

Lemma round_comp (x y : Q) (n : nat) : x == y -> Py.round x n == Py.round y n.
Proof.
  intros E. unfold Py.round, Py.div, Py.mul. cbv zeta.
  set (scale := inject_Z (10 ^ Z.of_nat n)).
  apply double_comp.
  rewrite (rint_comp (Py.double (x * scale)) (Py.double (y * scale)));
    [reflexivity|].
  apply double_comp. rewrite E. reflexivity.
Qed.

Lemma round2_unfold (x : Q) :
  Py.round x 2 = Py.double (inject_Z (Py.rint (Py.double (x * 100))) / 100).
Proof. reflexivity. Qed.

Lemma mul_percent (p : Q) : 0 <= p <= 1 -> 0 <= Py.mul p 100 <= 100.
Proof.
  intros [L U]. unfold Py.mul. split.
  - apply double_nonneg. lra.
  - apply double_below; [exact double_100 | lra].
Qed.

Lemma hundredths_in_range (x : Q) :
  0 <= x <= 100 -> (0 <= Py.rint (Py.double (x * 100)) <= 10000)%Z.
Proof.
  intros [L U]. split.
  - apply rint_lower. change (inject_Z 0) with 0. apply double_nonneg. lra.
  - apply rint_upper. change (inject_Z 10000) with 10000.
    apply double_below; [exact double_10000 | lra].
Qed.

(** Rounding a percentage to two decimals gives a percentage. *)
Lemma round2_percent (x : Q) : 0 <= x <= 100 -> 0 <= Py.round x 2 <= 100.
Proof.
  intros H. rewrite round2_unfold.
  destruct (hundredths_in_range x H) as [A B].
  rewrite Zle_Qle in A, B.
  change (inject_Z 0) with 0 in A. change (inject_Z 10000) with 10000 in B.
  set (k := inject_Z (Py.rint (Py.double (x * 100)))) in *.
  assert (D : k / 100 == k * (1 # 100)) by (unfold Qdiv; reflexivity).
  split.
  - apply double_nonneg. rewrite D. lra.
  - apply double_below; [exact double_100 | rewrite D; lra].
Qed.

(** So does the complement to 100. *)
Lemma sub_percent (s : Q) : 0 <= s <= 100 -> 0 <= Py.sub 100 s <= 100.
Proof.
  intros [L U]. unfold Py.sub. split.
  - apply double_nonneg. lra.
  - apply double_below; [exact double_100 | lra].
Qed.


Lemma percent_below_128 (x : Q) : 0 <= x <= 100 -> Qabs x < 2 ^ 7.
Proof.
  intros [L U]. rewrite Qabs_pos by exact L.
  apply Qle_lt_trans with 100; [exact U | reflexivity].
Qed.

(** The float complement is the exact complement up to one rounding. *)
Lemma sub_error (s : Q) :
  0 <= s <= 100 -> Qabs (Py.sub 100 s - (100 - s)) <= 2 ^ (-47).
Proof.
  intros H. unfold Py.sub.
  apply (double_error_below (100 - s) 7); [lia|].
  apply percent_below_128. lra.
Qed.

Lemma mul_error (p : Q) :
  0 <= p <= 1 -> Qabs (Py.mul p 100 - p * 100) <= 2 ^ (-47).
Proof.
  intros H. unfold Py.mul.
  apply (double_error_below (p * 100) 7); [lia|].
  apply percent_below_128. lra.
Qed.

(** [round(x, 2)] of a percentage is the double of a whole number of
    hundredths, and that number is the nearest one up to the rounding of
    the product. *)
Lemma round2_near (x : Q) :
  0 <= x <= 100 ->
  exists k : Z,
    (0 <= k <= 10000)%Z /\
    Py.round x 2 == Py.double (inject_Z k / 100) /\
    Qabs (inject_Z k / 100 - x) <= (1 # 200) + 2 ^ (-46) /\
    Qabs (Py.round x 2 - x) <= (1 # 200) + 2 ^ (-45).
Proof.
  intros H. exists (Py.rint (Py.double (x * 100))).
  pose proof (hundredths_in_range x H) as R.
  split; [exact R|]. split; [rewrite round2_unfold; reflexivity|].
  rewrite round2_unfold.
  assert (E1 : Qabs (Py.double (x * 100) - x * 100) <= 2 ^ (-40)).
  { apply (double_error_below (x * 100) 14); [lia|].
    rewrite Qabs_pos by lra.
    apply Qle_lt_trans with 10000; [lra | reflexivity]. }
  destruct (rint_near (Py.double (x * 100))) as [L U].
  destruct R as [R0 R1]. rewrite Zle_Qle in R0, R1.
  change (inject_Z 0) with 0 in R0. change (inject_Z 10000) with 10000 in R1.
  set (y := Py.double (x * 100)) in *.
  set (k := inject_Z (Py.rint y)) in *.
  assert (D : k / 100 == k * (1 # 100)) by (unfold Qdiv; reflexivity).
  assert (E2 : Qabs (Py.double (k / 100) - k / 100) <= 2 ^ (-47)).
  { apply (double_error_below (k / 100) 7); [lia|].
    apply percent_below_128. rewrite D. lra. }
  apply Qabs_Qle_condition in E1. apply Qabs_Qle_condition in E2.
  assert (P40 : 2 ^ (-40) == 1 # 1099511627776) by reflexivity.
  assert (P45 : 2 ^ (-45) == 1 # 35184372088832) by reflexivity.
  assert (P46 : 2 ^ (-46) == 1 # 70368744177664) by reflexivity.
  assert (P47 : 2 ^ (-47) == 1 # 140737488355328) by reflexivity.
  rewrite P40 in E1. rewrite P47 in E2. rewrite P46, P45.
  set (z := Py.double (k / 100)) in *.
  rewrite D in *.
  split; apply Qabs_Qle_condition; split; lra.
Qed.

(** ** Steps of the script *)

Lemma seq_ok {A B : Type} (m : script A) (k : A -> script B)
    (h h1 h2 : list string) (out1 out2 : list event) (a : A) (r : Py.result B) :
  m h = (out1, h1, Py.Ok a) ->
  k a h1 = (out2, h2, r) ->
  seq m k h = ((out1 ++ out2)%list, h2, r).
Proof. intros Hm Hk. unfold seq. rewrite Hm, Hk. reflexivity. Qed.

Lemma seq_raise {A B : Type} (m : script A) (k : A -> script B)
    (h h1 : list string) (out1 : list event) (exc : string) :
  m h = (out1, h1, Py.Raise exc) ->
  seq m k h = (out1, h1, Py.Raise exc).
Proof. intros Hm. unfold seq. rewrite Hm. reflexivity. Qed.

(** One step of a sequence: run the first part with [tac], go on with
    the rest. *)
Ltac script_step tac :=
  cbv beta iota; eapply eq_trans;
  [eapply seq_ok; [tac | cbv beta iota] | reflexivity].

Lemma for_each_write (f : nat * string -> string) (xs : list (nat * string))
    (h : list string) :
  for_each xs (fun p => emit (StWrite (f p))) h
  = (map (fun p => StWrite (f p)) xs, h, Py.Ok tt).
Proof.
  induction xs as [| p rest IH]; [reflexivity|].
  cbn [for_each map]. erewrite seq_ok; [|reflexivity|exact IH]. reflexivity.
Qed.

Lemma for_each_ext {A : Type} (f g : A -> script unit) (xs : list A) :
  (forall x, f x = g x) -> for_each xs f = for_each xs g.
Proof.
  intros E. induction xs as [| x rest IH]; [reflexivity|].
  cbn [for_each]. rewrite E, IH. reflexivity.
Qed.

Lemma written_lines_write (ls : list string) :
  written_lines (map StWrite ls) = ls.
Proof.
  induction ls as [| l rest IH]; [reflexivity|].
  cbn. f_equal. exact IH.
Qed.

(** The history display writes the stored list newest first and leaves
    it as it is. *)
Lemma history_display_spec (h : list string) :
  history_display h
  = (map StWrite (numbered_newest_first h), h, Py.Ok tt).
Proof.
  unfold history_display, get_history, numbered_newest_first, Py.reversed.
  set (f := fun '(i, entry) => str_nat (i + 1) ++ ". " ++ entry).
  erewrite seq_ok; [|reflexivity|].
  2:{ rewrite (for_each_ext _ (fun p => emit (StWrite (f p)))).
      - apply for_each_write.
      - intros [i entry]. reflexivity. }
  cbn [app]. rewrite map_map. reflexivity.
Qed.

Lemma result_display_spec (raw : Z) (score : Q) (h : list string) :
  result_display raw score h
  = ([if (raw =? 1)%Z
      then ResultCard "⚠️ Depression Detected"
             "Please consult a professional if this is a real concern." score
      else ResultCard "✅ No Depression Detected"
             "The voice sounds healthy and normal." (Py.sub 100 score)],
     (h ++ [if (raw =? 1)%Z
            then ("Depressed (" ++ float_repr score ++ "%)")%string
            else ("Not Depressed (" ++ float_repr (Py.sub 100 score) ++ "%)")%string])%list,
     Py.Ok tt).
Proof. unfold result_display. destruct (raw =? 1)%Z; reflexivity. Qed.

Lemma teddy_plain (raw : Z) (h : list string) :
  exists out, teddy raw h = (out, h, Py.Ok tt) /\ forallb plain out = true.
Proof.
  unfold teddy. destruct (raw =? 1)%Z; eexists; split; reflexivity.
Qed.

Lemma mood_rating_plain (rating : Z) (h : list string) :
  exists out, mood_rating rating h = (out, h, Py.Ok tt) /\ forallb plain out = true.
Proof.
  unfold mood_rating.
  destruct (rating =? 5)%Z; [eexists; split; reflexivity|].
  destruct (rating =? 4)%Z; [eexists; split; reflexivity|].
  destruct (rating =? 3)%Z; [eexists; split; reflexivity|].
  destruct (rating =? 2)%Z; eexists; split; reflexivity.
Qed.

Lemma extract_features_ok (file : upload) (y : list Q) (sr : Z)
    (m : list (list Q)) (h : list string) :
  Librosa.load file (1 # 2) 3 = Py.Ok (y, sr) ->
  mfcc y sr 13 = Py.Ok m ->
  extract_features file h = ([], h, Py.Ok (Some ([map Py.mean m], y, sr))).
Proof.
  intros Hl Hm. unfold extract_features. rewrite Hl. cbn [Py.bind].
  rewrite Hm. reflexivity.
Qed.

Lemma extract_features_fails (file : upload) (exc : string) (h : list string) :
  extraction_fails file exc ->
  extract_features file h = ([StError ("Audio Error: " ++ exc)], h, Py.Ok None).
Proof.
  intros [Hl | (y & sr & Hl & Hm)]; unfold extract_features; rewrite Hl;
    cbn [Py.bind]; [|rewrite Hm]; reflexivity.
Qed.

(** A run on a file that is classified, when the confidence is
    computed: the whole page and the state it leaves. *)
Lemma run_classified (s : session_state) (inp : run_input) (file : upload)
    (raw : Z) (proba : list Q) (score : Q) :
  uploaded_file inp = Some file ->
  classified file raw proba ->
  confidence_score proba = Py.Ok score ->
  exists y sr m tail,
    Librosa.load file (1 # 2) 3 = Py.Ok (y, sr) /\
    mfcc y sr 13 = Py.Ok m /\
    forallb plain tail = true /\
    let x := [map Py.mean m] in
    let h' := (session_history s ++
               [if (raw =? 1)%Z
                then ("Depressed (" ++ float_repr score ++ "%)")%string
                else ("Not Depressed (" ++ float_repr (Py.sub 100 score) ++ "%)")%string])%list in
    run s inp =
    {| state_after := {| history := Some h' |};
       page :=
         ([Audio file; WaveformPlot y; MelSpectrogramPlot y sr;
           Predict x; PredictProba x;
           if (raw =? 1)%Z
           then ResultCard "⚠️ Depression Detected"
                  "Please consult a professional if this is a real concern." score
           else ResultCard "✅ No Depression Detected"
                  "The voice sounds healthy and normal." (Py.sub 100 score);
           DownloadButton "depression_report.pdf"
             (snd (generate_pdf_report (now inp) (result_label raw) score))]
          ++ map StWrite (numbered_newest_first h') ++ tail)%list;
       outcome := Py.Ok tt |}.
Proof.
  intros Hf (y & sr & m & rest & rest' & Hl & Hm & Hp & Hpp) Hc.
  set (h' := (session_history s ++ _)%list).
  destruct (teddy_plain raw h') as (out1 & Ht & P1).
  destruct (mood_rating_plain (rating inp) h') as (out2 & Hr & P2).
  exists y, sr, m, (out1 ++ out2)%list.
  split; [exact Hl|]. split; [exact Hm|].
  split; [rewrite forallb_app, P1, P2; reflexivity|].
  cbv zeta. unfold run, prediction_block, prediction_block_in. rewrite Hf.
  assert (E : (teddy raw ;;; mood_rating (rating inp)) h'
              = ((out1 ++ out2)%list, h', Py.Ok tt)).
  { eapply seq_ok; [exact Ht | exact Hr]. }
  erewrite seq_ok; [|reflexivity|].
  2:{ script_step ltac:(apply (extract_features_ok _ _ _ _ _ Hl Hm)).
      do 6 script_step ltac:(reflexivity).
      rewrite Hpp. script_step ltac:(reflexivity).
      script_step ltac:(unfold lift; rewrite Hc; reflexivity).
      rewrite Hp. script_step ltac:(reflexivity).
      script_step ltac:(apply result_display_spec).
      script_step ltac:(reflexivity).
      script_step ltac:(apply history_display_spec).
      cbv beta. fold h'. exact E. }
  fold h'. cbn [app]. reflexivity.
Qed.

(** ** Reading a page *)

Lemma plain_carries_nothing (out : list event) :
  forallb plain out = true ->
  shown_confidence out = [] /\ shown_advice out = [] /\
  offered_reports out = [] /\ written_lines out = [] /\
  classifier_calls out = [].
Proof.
  induction out as [| e rest IH]; [repeat split|].
  cbn [forallb]. intros H. apply andb_prop in H. destruct H as [He Hr].
  destruct (IH Hr) as (A & B & C & D & E).
  destruct e; try discriminate He; cbn; repeat split; assumption.
Qed.

Lemma writes_carry_no_decision (ls : list string) :
  shown_confidence (map StWrite ls) = [] /\ shown_advice (map StWrite ls) = [] /\
  offered_reports (map StWrite ls) = [] /\ classifier_calls (map StWrite ls) = [].
Proof.
  induction ls as [| l rest (A & B & C & D)]; repeat split; assumption.
Qed.

Lemma confidence_score_binary (p0 p1 : Q) (tl : list Q) :
  confidence_score (p0 :: p1 :: tl) = Py.Ok (Py.round (Py.mul p1 100) 2).
Proof. reflexivity. Qed.

Lemma confidence_score_single (p0 : Q) :
  confidence_score [p0] = Py.Ok (Py.round (Py.mul p0 100) 2).
Proof. reflexivity. Qed.

(** What a run that classifies shows and stores. *)
Lemma run_classified_view (s : session_state) (inp : run_input) (file : upload)
    (raw : Z) (proba : list Q) (score : Q) :
  uploaded_file inp = Some file ->
  classified file raw proba ->
  confidence_score proba = Py.Ok score ->
  let r := run s inp in
  let h' := (session_history s ++
             [if (raw =? 1)%Z
              then ("Depressed (" ++ float_repr score ++ "%)")%string
              else ("Not Depressed (" ++ float_repr (Py.sub 100 score) ++ "%)")%string])%list in
  shown_confidence (page r) = [if (raw =? 1)%Z then score else Py.sub 100 score] /\
  shown_advice (page r)
    = [if (raw =? 1)%Z
       then "Please consult a professional if this is a real concern."
       else "The voice sounds healthy and normal."] /\
  offered_reports (page r)
    = [snd (generate_pdf_report (now inp) (result_label raw) score)] /\
  written_lines (page r) = numbered_newest_first h' /\
  history (state_after r) = Some h' /\
  outcome r = Py.Ok tt.
Proof.
  intros Hf Hc Hs.
  destruct (run_classified s inp file raw proba score Hf Hc Hs)
    as (y & sr & m & tail & _ & _ & Hplain & Hrun).
  cbv zeta in Hrun |- *. rewrite Hrun. cbn [page state_after outcome history].
  destruct (plain_carries_nothing tail Hplain) as (T1 & T2 & T3 & T4 & _).
  set (h' := (session_history s ++ _)%list).
  destruct (writes_carry_no_decision (numbered_newest_first h')) as (W1 & W2 & W3 & _).
  unfold shown_confidence, shown_advice, offered_reports, written_lines in *.
  rewrite !flat_map_app, T1, T2, T3, T4, W1, W2, W3.
  pose proof (written_lines_write (numbered_newest_first h')) as W4.
  unfold written_lines in W4. rewrite W4.
  destruct (raw =? 1)%Z; cbn; rewrite ?app_nil_r; repeat split; reflexivity.
Qed.

(** ** Runs that make no decision *)

Lemma run_no_file (s : session_state) (inp : run_input) :
  uploaded_file inp = None ->
  run s inp = {| state_after := {| history := Some (session_history s) |};
                 page := [];
                 outcome := Py.Ok tt |}.
Proof. intros Hf. unfold run, prediction_block, prediction_block_in. rewrite Hf. reflexivity. Qed.

Lemma run_extraction_fails (s : session_state) (inp : run_input)
    (file : upload) (exc : string) :
  uploaded_file inp = Some file ->
  extraction_fails file exc ->
  run s inp = {| state_after := {| history := Some (session_history s) |};
                 page := [Audio file; StError ("Audio Error: " ++ exc)];
                 outcome := Py.Ok tt |}.
Proof.
  intros Hf He. unfold run, prediction_block, prediction_block_in. rewrite Hf.
  erewrite seq_ok; [|reflexivity|].
  2:{ script_step ltac:(apply (extract_features_fails _ _ _ He)). reflexivity. }
  reflexivity.
Qed.

(** The classifier was called and an index into its answer is out of
    range: the script stops on the exception, before the result. *)
Lemma run_classifier_crash (s : session_state) (inp : run_input)
    (file : upload) (y : list Q) (sr : Z) (m : list (list Q)) :
  uploaded_file inp = Some file ->
  Librosa.load file (1 # 2) 3 = Py.Ok (y, sr) ->
  mfcc y sr 13 = Py.Ok m ->
  let x := [map Py.mean m] in
  (model_predict_proba x = [] \/
   exists proba rest,
     model_predict_proba x = proba :: rest /\
     ((exists e, confidence_score proba = Py.Raise e) \/ model_predict x = [])) ->
  exists exc,
    run s inp = {| state_after := {| history := Some (session_history s) |};
                   page := [Audio file; WaveformPlot y; MelSpectrogramPlot y sr;
                            Predict x; PredictProba x];
                   outcome := Py.Raise exc |}.
Proof.
  intros Hf Hl Hm x Hbad.
  assert (G : exists exc,
    (proba <- lift (Py.index (model_predict_proba x) 0) ;;
     score <- lift (confidence_score proba) ;;
     raw <- lift (Py.index (model_predict x) 0) ;;
     result_display raw score ;;;
     (let '(report_path, pdf) :=
        generate_pdf_report (now inp) (result_label raw) score in
      lift (env_pdf_output reliable report_path pdf) ;;;
      lift (env_open reliable report_path) ;;;
      emit (DownloadButton "depression_report.pdf" pdf)) ;;;
     history_display ;;; teddy raw ;;; mood_rating (rating inp))
      (session_history s)
    = ([], session_history s, Py.Raise exc)).
  { destruct Hbad as [E | (proba & rest & E & [[e Hc] | Hp])]; rewrite E.
    - eexists. apply seq_raise. reflexivity.
    - exists e. script_step ltac:(reflexivity).
      apply seq_raise. unfold lift. rewrite Hc. reflexivity.
    - destruct (confidence_score proba) as [score | e] eqn:Hc.
      + eexists. script_step ltac:(reflexivity).
        script_step ltac:(unfold lift; rewrite Hc; reflexivity).
        rewrite Hp. apply seq_raise. reflexivity.
      + exists e. script_step ltac:(reflexivity).
        apply seq_raise. unfold lift. rewrite Hc. reflexivity. }
  destruct G as [exc G]. exists exc.
  unfold run, prediction_block, prediction_block_in. rewrite Hf.
  erewrite seq_ok; [|reflexivity|].
  2:{ script_step ltac:(apply (extract_features_ok _ _ _ _ _ Hl Hm)).
      do 6 script_step ltac:(reflexivity).
      fold x. exact G. }
  reflexivity.
Qed.

(** Every run either leaves the history alone and shows no result, or
    is a run on a classified file. *)
Lemma run_cases (s : session_state) (inp : run_input) :
  (history (state_after (run s inp)) = Some (session_history s) /\
   shown_confidence (page (run s inp)) = [] /\
   written_lines (page (run s inp)) = []) \/
  (exists file raw proba score,
     uploaded_file inp = Some file /\
     classified file raw proba /\
     confidence_score proba = Py.Ok score).
Proof.
  destruct (uploaded_file inp) as [file |] eqn:Hf.
  2:{ left. rewrite (run_no_file s inp Hf). repeat split. }
  destruct (Librosa.load file (1 # 2) 3) as [[y sr] | exc] eqn:Hl.
  2:{ left. rewrite (run_extraction_fails s inp file exc Hf);
        [repeat split | left; exact Hl]. }
  destruct (mfcc y sr 13) as [m | exc] eqn:Hm.
  2:{ left. rewrite (run_extraction_fails s inp file exc Hf);
        [repeat split | right; exists y, sr; split; assumption]. }
  pose proof (run_classifier_crash s inp file y sr m Hf Hl Hm) as Crash.
  cbv zeta in Crash.
  destruct (model_predict_proba [map Py.mean m]) as [| proba rest'] eqn:Hpp.
  { left. destruct Crash as [exc R]; [left; reflexivity|].
    rewrite R. repeat split. }
  destruct (confidence_score proba) as [score | e] eqn:Hc.
  2:{ left. destruct Crash as [exc R].
      - right. exists proba, rest'. split; [reflexivity|]. left. exists e. exact Hc.
      - rewrite R. repeat split. }
  destruct (model_predict [map Py.mean m]) as [| raw rest] eqn:Hp.
  { left. destruct Crash as [exc R].
    - right. exists proba, rest'. split; [reflexivity|]. right. reflexivity.
    - rewrite R. repeat split. }
  right. exists file, raw, proba, score.
  split; [reflexivity|]. split; [|exact Hc].
  exists y, sr, m, rest, rest'. repeat split; assumption.
Qed.

(** ** The decision *)

(** C5.  The label is "Depressed" exactly for raw label 1 and
    "Not Depressed" for every other raw label; there is no third
    label. *)
Theorem label_mapping_total_binary (raw : Z) :
  (result_label raw = "Depressed" <-> raw = 1%Z) /\
  (result_label raw = "Not Depressed" <-> raw <> 1%Z) /\
  (result_label raw = "Depressed" \/ result_label raw = "Not Depressed").
Proof.
  unfold result_label. destruct (Z.eqb_spec raw 1) as [E | N].
  - repeat split; auto; try discriminate; intros H; contradiction.
  - repeat split; auto; try discriminate; intros H; contradiction.
Qed.

(** C10.  With at least one probability, all of them between 0 and 1,
    the run shows exactly one confidence; it and the confidence given to
    the report lie between 0 and 100. *)
Theorem confidence_percent_in_range (s : session_state) (inp : run_input)
    (file : upload) (raw : Z) (proba : list Q) :
  uploaded_file inp = Some file ->
  classified file raw proba ->
  (1 <= List.length proba)%nat ->
  Forall (fun p => 0 <= p <= 1) proba ->
  exists score shown,
    confidence_score proba = Py.Ok score /\ 0 <= score <= 100 /\
    shown_confidence (page (run s inp)) = [shown] /\ 0 <= shown <= 100.
Proof.
  intros Hf Hc Hlen Hrange.
  assert (S : exists p, In p proba /\
                confidence_score proba = Py.Ok (Py.round (Py.mul p 100) 2)).
  { destruct proba as [| p0 [| p1 tl]]; [cbn in Hlen; lia | |].
    - exists p0. split; [left; reflexivity | reflexivity].
    - exists p1. split; [right; left; reflexivity | reflexivity]. }
  destruct S as (p & Hin & Hs).
  rewrite Forall_forall in Hrange. specialize (Hrange p Hin).
  assert (B : 0 <= Py.round (Py.mul p 100) 2 <= 100)
    by (apply round2_percent; apply mul_percent; exact Hrange).
  destruct (run_classified_view s inp file raw proba _ Hf Hc Hs) as (V1 & _).
  exists (Py.round (Py.mul p 100) 2).
  exists (if (raw =? 1)%Z then Py.round (Py.mul p 100) 2
          else Py.sub 100 (Py.round (Py.mul p 100) 2)).
  split; [exact Hs|]. split; [exact B|]. split; [exact V1|].
  destruct (raw =? 1)%Z; [exact B | apply sub_percent; exact B].
Qed.

(** ** Advisory text *)

(** ** Loading and feature extraction *)

Lemma frames_whole (n sr : Z) :
  Librosa.frames (inject_Z n) sr = Z.to_nat (n * sr).
Proof.
  unfold Librosa.frames. rewrite <- inject_Z_mult, Qfloor_Z. reflexivity.
Qed.

Lemma frames_half (sr : Z) : Librosa.frames (1 # 2) sr = Z.to_nat (sr / 2).
Proof.
  unfold Librosa.frames, Qfloor. cbn [Qmult inject_Z Qnum Qden].
  rewrite Z.mul_1_l. reflexivity.
Qed.

Lemma mean_is_sum_over_count (row : list Q) :
  row <> [] ->
  Py.mean row * inject_Z (Z.of_nat (List.length row)) == fold_right Qplus 0 row.
Proof.
  intros N. unfold Py.mean. field.
  destruct row as [| a rest]; [contradiction|].
  cbn [List.length]. intros E.
  assert (Z.of_nat (S (List.length rest)) = 0%Z) as Z0.
  { apply inject_Z_injective. exact E. }
  lia.
Qed.

(** C7.  Given that the cepstral analysis returns as many rows as the
    coefficients asked for, whenever feature extraction succeeds the
    sample handed to the classifier is one vector of length 13, and its
    i-th entry is the sum of the i-th coefficient over the time frames
    divided by the number of frames. *)
Theorem feature_vector_is_13_means (file : upload) (h h' : list string)
    (out : list event) (x : features) (y : list Q) (sr : Z) :
  (forall y sr n m, mfcc y sr n = Py.Ok m -> List.length m = n) ->
  extract_features file h = (out, h', Py.Ok (Some (x, y, sr))) ->
  exists m v,
    Librosa.load file (1 # 2) 3 = Py.Ok (y, sr) /\
    mfcc y sr 13 = Py.Ok m /\
    x = [v] /\
    List.length v = 13%nat /\
    forall i, (i < 13)%nat ->
      let row := nth i m [] in
      nth i v 0 = Py.mean row /\
      (row <> [] ->
       nth i v 0 * inject_Z (Z.of_nat (List.length row))
       == fold_right Qplus 0 row).
Proof.
  intros Hshape Hx. unfold extract_features in Hx.
  destruct (Librosa.load file (1 # 2) 3) as [[y1 sr1] | e] eqn:Hl;
    [|discriminate Hx].
  cbn [Py.bind] in Hx.
  destruct (mfcc y1 sr1 13) as [m | e] eqn:Hm; [|discriminate Hx].
  cbn [Py.bind] in Hx. unfold ret in Hx.
  injection Hx as _ _ Ex Ey Esr. subst y1 sr1 x.
  exists m, (map Py.mean m).
  split; [reflexivity|]. split; [exact Hm|]. split; [reflexivity|].
  pose proof (Hshape y sr 13%nat m Hm) as Hrows.
  split; [rewrite length_map; exact Hrows|].
  intros i Hi row.
  assert (E : nth i (map Py.mean m) 0 = Py.mean row).
  { unfold row. rewrite <- Hrows in Hi.
    rewrite (nth_indep (map Py.mean m) 0 (Py.mean [])) by (rewrite length_map; exact Hi).
    apply map_nth. }
  split; [exact E|].
  intros N. rewrite E. apply mean_is_sum_over_count. exact N.
Qed.

(** ** Errors *)

(** C9.  When decoding or feature extraction raises, the run shows the
    player and the error message and nothing else: the classifier is
    not called, there is no result card, no report and no history line,
    the stored history is as before, and the script ends normally. *)
Theorem extraction_failure_stops_before_classifier (s : session_state)
    (inp : run_input) (file : upload) (exc : string) :
  uploaded_file inp = Some file ->
  extraction_fails file exc ->
  let r := run s inp in
  page r = [Audio file; StError ("Audio Error: " ++ exc)] /\
  classifier_calls (page r) = [] /\
  (forall x, ~ In (Predict x) (page r) /\ ~ In (PredictProba x) (page r)) /\
  shown_confidence (page r) = [] /\
  offered_reports (page r) = [] /\
  history (state_after r) = Some (session_history s) /\
  outcome r = Py.Ok tt.
Proof.
  intros Hf He r. unfold r. rewrite (run_extraction_fails s inp file exc Hf He).
  cbn [page state_after outcome history].
  repeat split; try reflexivity.
  - intros [H | [H | []]]; discriminate H.
  - intros [H | [H | []]]; discriminate H.
Qed.

(** ** Session history *)

Lemma decided_iff_appended (s : session_state) (inp : run_input) :
  let r := run s inp in
  (decided r = false /\
   session_history (state_after r) = session_history s /\
   written_lines (page r) = []) \/
  (decided r = true /\
   exists entry,
     session_history (state_after r) = (session_history s ++ [entry])%list /\
     written_lines (page r)
       = numbered_newest_first (session_history s ++ [entry])).
Proof.
  intros r. unfold decided, session_history at 1 3.
  destruct (run_cases s inp) as [(H & C & W) | (file & raw & proba & score & Hf & Hc & Hs)].
  - left. fold r in H, C, W. rewrite H, C. repeat split. exact W.
  - right.
    destruct (run_classified_view s inp file raw proba score Hf Hc Hs)
      as (V1 & _ & _ & V4 & V5 & _).
    fold r in V1, V4, V5. rewrite V1, V5. split; [reflexivity|].
    eexists. split; [reflexivity | exact V4].
Qed.

Lemma session_appends (inputs : list run_input) (s : session_state) :
  exists added,
    session_history (fst (session s inputs))
      = (session_history s ++ added)%list /\
    List.length added = List.length (filter decided (snd (session s inputs))).
Proof.
  revert s. induction inputs as [| inp rest IH]; intros s.
  - exists []. cbn. rewrite app_nil_r. split; reflexivity.
  - cbn [session].
    destruct (IH (state_after (run s inp))) as (added & Hh & Hn).
    destruct (session (state_after (run s inp)) rest) as [s' rs] eqn:Hs.
    cbn [fst snd] in *. cbn [filter].
    destruct (decided_iff_appended s inp) as [(D & Hsame & _) | (D & entry & Happ & _)];
      rewrite D.
    + exists added. rewrite Hh, Hsame. split; [reflexivity | exact Hn].
    + exists (entry :: added). rewrite Hh, Happ, <- app_assoc.
      split; [reflexivity | cbn; f_equal; exact Hn].
Qed.

(** ** The whole page of a run *)

Lemma teddy_spec (raw : Z) (h : list string) :
  teddy raw h
  = ([Image (if (raw =? 1)%Z then "sad_teddy.png" else "happy_teddy.png")],
     h, Py.Ok tt).
Proof. unfold teddy. destruct (raw =? 1)%Z; reflexivity. Qed.

Lemma mood_rating_spec (rating : Z) (h : list string) :
  mood_rating rating h = (mood_events rating, h, Py.Ok tt).
Proof.
  unfold mood_events, mood_rating.
  destruct (rating =? 5)%Z; [reflexivity|].
  destruct (rating =? 4)%Z; [reflexivity|].
  destruct (rating =? 3)%Z; [reflexivity|].
  destruct (rating =? 2)%Z; reflexivity.
Qed.

Lemma mood_events_plain (rating : Z) : forallb plain (mood_events rating) = true.
Proof.
  destruct (mood_rating_plain rating []) as (out & E & P).
  unfold mood_events. rewrite E. exact P.
Qed.

(** A run on a classified file, with everything it puts on the page. *)
Lemma run_classified_page (s : session_state) (inp : run_input) (file : upload)
    (raw : Z) (proba : list Q) (score : Q) :
  uploaded_file inp = Some file ->
  classified file raw proba ->
  confidence_score proba = Py.Ok score ->
  exists y sr m,
    Librosa.load file (1 # 2) 3 = Py.Ok (y, sr) /\
    mfcc y sr 13 = Py.Ok m /\
    let x := [map Py.mean m] in
    let h' := (session_history s ++
               [if (raw =? 1)%Z
                then ("Depressed (" ++ float_repr score ++ "%)")%string
                else ("Not Depressed (" ++ float_repr (Py.sub 100 score) ++ "%)")%string])%list in
    run s inp =
    {| state_after := {| history := Some h' |};
       page :=
         ([Audio file; WaveformPlot y; MelSpectrogramPlot y sr;
           Predict x; PredictProba x;
           if (raw =? 1)%Z
           then ResultCard "⚠️ Depression Detected"
                  "Please consult a professional if this is a real concern." score
           else ResultCard "✅ No Depression Detected"
                  "The voice sounds healthy and normal." (Py.sub 100 score);
           DownloadButton "depression_report.pdf"
             (snd (generate_pdf_report (now inp) (result_label raw) score))]
          ++ map StWrite (numbered_newest_first h')
          ++ Image (if (raw =? 1)%Z then "sad_teddy.png" else "happy_teddy.png")
          :: mood_events (rating inp))%list;
       outcome := Py.Ok tt |}.
Proof.
  intros Hf (y & sr & m & rest & rest' & Hl & Hm & Hp & Hpp) Hc.
  exists y, sr, m. split; [exact Hl|]. split; [exact Hm|].
  cbv zeta. set (h' := (session_history s ++ _)%list).
  unfold run, prediction_block, prediction_block_in. rewrite Hf.
  erewrite seq_ok; [|reflexivity|].
  2:{ script_step ltac:(apply (extract_features_ok _ _ _ _ _ Hl Hm)).
      do 6 script_step ltac:(reflexivity).
      rewrite Hpp. script_step ltac:(reflexivity).
      script_step ltac:(unfold lift; rewrite Hc; reflexivity).
      rewrite Hp. script_step ltac:(reflexivity).
      script_step ltac:(apply result_display_spec).
      script_step ltac:(reflexivity).
      script_step ltac:(apply history_display_spec).
      script_step ltac:(apply teddy_spec).
      fold h'. apply mood_rating_spec. }
  fold h'. cbn [app]. reflexivity.
Qed.

(** The four ways a run can go. *)
Lemma run_shapes (s : session_state) (inp : run_input) :
  (uploaded_file inp = None /\
   run s inp = {| state_after := {| history := Some (session_history s) |};
                  page := [];
                  outcome := Py.Ok tt |}) \/
  (exists file exc,
     uploaded_file inp = Some file /\
     extraction_fails file exc /\
     run s inp = {| state_after := {| history := Some (session_history s) |};
                    page := [Audio file; StError ("Audio Error: " ++ exc)];
                    outcome := Py.Ok tt |}) \/
  (exists file y sr m exc,
     uploaded_file inp = Some file /\
     Librosa.load file (1 # 2) 3 = Py.Ok (y, sr) /\
     mfcc y sr 13 = Py.Ok m /\
     run s inp = {| state_after := {| history := Some (session_history s) |};
                    page := [Audio file; WaveformPlot y; MelSpectrogramPlot y sr;
                             Predict [map Py.mean m]; PredictProba [map Py.mean m]];
                    outcome := Py.Raise exc |}) \/
  (exists file raw proba score,
     uploaded_file inp = Some file /\
     classified file raw proba /\
     confidence_score proba = Py.Ok score).
Proof.
  destruct (uploaded_file inp) as [file |] eqn:Hf.
  2:{ left. split; [reflexivity | apply run_no_file; exact Hf]. }
  right.
  destruct (Librosa.load file (1 # 2) 3) as [[y sr] | exc] eqn:Hl.
  2:{ left. exists file, exc. split; [reflexivity|].
      assert (F : extraction_fails file exc) by (left; exact Hl).
      split; [exact F | apply run_extraction_fails; assumption]. }
  destruct (mfcc y sr 13) as [m | exc] eqn:Hm.
  2:{ left. exists file, exc. split; [reflexivity|].
      assert (F : extraction_fails file exc)
        by (right; exists y, sr; split; assumption).
      split; [exact F | apply run_extraction_fails; assumption]. }
  right.
  pose proof (run_classifier_crash s inp file y sr m Hf Hl Hm) as Crash.
  cbv zeta in Crash.
  destruct (model_predict_proba [map Py.mean m]) as [| proba rest'] eqn:Hpp.
  { left. destruct Crash as [exc R]; [left; reflexivity|].
    exists file, y, sr, m, exc. repeat split; assumption. }
  destruct (confidence_score proba) as [score | e] eqn:Hc.
  2:{ left. destruct Crash as [exc R].
      - right. exists proba, rest'. split; [reflexivity|]. left. exists e. exact Hc.
      - exists file, y, sr, m, exc. repeat split; assumption. }
  destruct (model_predict [map Py.mean m]) as [| raw rest] eqn:Hp.
  { left. destruct Crash as [exc R].
    - right. exists proba, rest'. split; [reflexivity|]. right. reflexivity.
    - exists file, y, sr, m, exc. repeat split; assumption. }
  right. exists file, raw, proba, score.
  split; [reflexivity|]. split; [|exact Hc].
  exists y, sr, m, rest, rest'. repeat split; assumption.
Qed.

(** ** Errors and exceptions *)

(** X1.  Feature extraction never lets an exception through and never
    touches the history.  Either decoding or the analysis raised, and
    then it returns nothing and shows one error message made of
    "Audio Error: " and the exception; or both returned, and then it
    shows nothing and returns the window that was loaded, its rate and a
    one-row sample with the mean of each row of the analysis. *)
Theorem extract_features_never_raises (file : upload) (h : list string) :
  exists out res,
    extract_features file h = (out, h, Py.Ok res) /\
    ((exists exc,
        extraction_fails file exc /\ res = None /\
        out = [StError ("Audio Error: " ++ exc)]) \/
     (exists y sr m,
        Librosa.load file (1 # 2) 3 = Py.Ok (y, sr) /\
        mfcc y sr 13 = Py.Ok m /\
        res = Some ([map Py.mean m], y, sr) /\ out = [])).
Proof.
  destruct (Librosa.load file (1 # 2) 3) as [[y sr] | exc] eqn:Hl.
  - destruct (mfcc y sr 13) as [m | exc] eqn:Hm.
    + exists [], (Some ([map Py.mean m], y, sr)).
      split; [apply extract_features_ok; assumption|].
      right. exists y, sr, m. repeat split; assumption.
    + assert (F : extraction_fails file exc)
        by (right; exists y, sr; split; assumption).
      exists [StError ("Audio Error: " ++ exc)], None.
      split; [apply extract_features_fails; exact F|].
      left. exists exc. repeat split. exact F.
  - assert (F : extraction_fails file exc) by (left; exact Hl).
    exists [StError ("Audio Error: " ++ exc)], None.
    split; [apply extract_features_fails; exact F|].
    left. exists exc. repeat split. exact F.
Qed.

(** X2.  When the audio is fine but the classifier's answer cannot be
    indexed (no row of probabilities, an empty row, or no label), the
    run stops on the exception after both classifier calls: the page has
    the player, the two plots and nothing of a result, no report is
    offered, no history line is written and the stored history is as
    before. *)
Theorem unusable_classifier_answer_raises (s : session_state) (inp : run_input)
    (file : upload) (y : list Q) (sr : Z) (m : list (list Q)) :
  uploaded_file inp = Some file ->
  Librosa.load file (1 # 2) 3 = Py.Ok (y, sr) ->
  mfcc y sr 13 = Py.Ok m ->
  let x := [map Py.mean m] in
  (model_predict_proba x = [] \/
   hd_error (model_predict_proba x) = Some [] \/
   model_predict x = []) ->
  let r := run s inp in
  (exists exc, outcome r = Py.Raise exc) /\
  page r = [Audio file; WaveformPlot y; MelSpectrogramPlot y sr;
            Predict x; PredictProba x] /\
  shown_confidence (page r) = [] /\
  offered_reports (page r) = [] /\
  written_lines (page r) = [] /\
  history (state_after r) = Some (session_history s).
Proof.
  intros Hf Hl Hm x Hbad r.
  destruct (run_classifier_crash s inp file y sr m Hf Hl Hm) as [exc R].
  - fold x. destruct (model_predict_proba x) as [| proba rest] eqn:Hpp;
      [left; reflexivity | right].
    exists proba, rest. split; [reflexivity|].
    destruct Hbad as [E | [E | E]]; [discriminate E | | right; exact E].
    cbn in E. injection E as ->. left. eexists. reflexivity.
  - unfold r. rewrite R. cbn [page outcome state_after history].
    repeat split. exists exc. reflexivity.
Qed.

Lemma classified_run_calls_once (s : session_state) (inp : run_input)
    (file : upload) (raw : Z) (proba : list Q) (score : Q) :
  uploaded_file inp = Some file ->
  classified file raw proba ->
  confidence_score proba = Py.Ok score ->
  exists v,
    classifier_calls (page (run s inp)) = [Predict [v]; PredictProba [v]].
Proof.
  intros Hf Hc Hs.
  destruct (run_classified s inp file raw proba score Hf Hc Hs)
    as (y & sr & m & tail & _ & _ & Hplain & Hrun).
  cbv zeta in Hrun. rewrite Hrun. cbn [page].
  destruct (plain_carries_nothing tail Hplain) as (_ & _ & _ & _ & T).
  set (h' := (session_history s ++ _)%list).
  destruct (writes_carry_no_decision (numbered_newest_first h')) as (_ & _ & _ & W).
  exists (map Py.mean m).
  unfold classifier_calls in *. rewrite !filter_app, T, W.
  destruct (raw =? 1)%Z; reflexivity.
Qed.

(** ** Monotonicity *)


(** ** The history on the page *)

Lemma enumerate_from_nth {A : Type} (xs : list A) (k i : nat) :
  nth_error (Py.enumerate_from k xs) i
  = option_map (fun x => ((k + i)%nat, x)) (nth_error xs i).
Proof.
  revert k i. induction xs as [| x rest IH]; intros k i.
  - destruct i; reflexivity.
  - destruct i as [| i]; cbn [Py.enumerate_from nth_error option_map].
    + rewrite Nat.add_0_r. reflexivity.
    + rewrite IH. rewrite Nat.add_succ_comm. reflexivity.
Qed.

Lemma enumerate_from_length {A : Type} (xs : list A) (k : nat) :
  List.length (Py.enumerate_from k xs) = List.length xs.
Proof.
  revert k. induction xs as [| x rest IH]; intros k; [reflexivity|].
  cbn. rewrite IH. reflexivity.
Qed.

Lemma numbered_newest_first_length (h : list string) :
  List.length (numbered_newest_first h) = List.length h.
Proof.
  unfold numbered_newest_first, Py.enumerate.
  rewrite length_map, enumerate_from_length, length_rev. reflexivity.
Qed.

Lemma numbered_newest_first_nth (h : list string) (i : nat) :
  (i < List.length h)%nat ->
  nth_error (numbered_newest_first h) i
  = option_map (fun e => str_nat (S i) ++ ". " ++ e)
      (nth_error h (List.length h - S i)).
Proof.
  intros Hi. unfold numbered_newest_first, Py.enumerate.
  rewrite nth_error_map, enumerate_from_nth, nth_error_rev.
  apply Nat.ltb_lt in Hi. rewrite Hi.
  destruct (nth_error h (List.length h - S i)) as [e |]; [|reflexivity].
  cbn [option_map Nat.add]. rewrite Nat.add_1_r. reflexivity.
Qed.

(** X7.  A run that decides writes one line for each stored entry, the
    entry it has just added included.  Line k, counted from 1, is the
    number k, a full stop, a blank and the k-th newest entry, so the
    first line is the new entry, and the oldest entry comes last. *)
Theorem history_lines_numbered_newest_first (s : session_state) (inp : run_input) :
  let r := run s inp in
  decided r = true ->
  let stored := session_history (state_after r) in
  let lines := written_lines (page r) in
  List.length lines = List.length stored /\
  (forall i, (i < List.length stored)%nat ->
     nth_error lines i
     = option_map (fun e => str_nat (S i) ++ ". " ++ e)
         (nth_error stored (List.length stored - S i))) /\
  (exists entry,
     stored = (session_history s ++ [entry])%list /\
     hd_error lines = Some ("1. " ++ entry)).
Proof.
  intros r D stored lines.
  destruct (decided_iff_appended s inp) as [(D' & _) | (_ & entry & Happ & W)].
  { fold r in D'. rewrite D in D'. discriminate D'. }
  fold r in Happ, W. fold stored in Happ. fold lines in W.
  rewrite <- Happ in W. rewrite W.
  split; [apply numbered_newest_first_length|].
  split; [intros i Hi; apply numbered_newest_first_nth; exact Hi|].
  exists entry. split; [exact Happ|].
  rewrite Happ. unfold numbered_newest_first.
  rewrite rev_app_distr. reflexivity.
Qed.

Lemma run_keeps_entry_form (s : session_state) (inp : run_input) :
  Forall entry_form (session_history s) ->
  Forall entry_form (session_history (state_after (run s inp))).
Proof.
  intros H.
  destruct (run_shapes s inp)
    as [[_ R] | [(file & e & _ & _ & R)
       | [(file & y & sr & m & e & _ & _ & _ & R)
         | (file & raw & proba & score & Hf & Hc & Hs)]]];
    try (rewrite R; exact H).
  destruct (run_classified_view s inp file raw proba score Hf Hc Hs)
    as (_ & _ & _ & _ & V5 & _).
  unfold session_history at 1. rewrite V5.
  apply Forall_app. split; [exact H|].
  constructor; [|constructor].
  destruct (raw =? 1)%Z.
  - exists score. left. reflexivity.
  - exists (Py.sub 100 score). right. reflexivity.
Qed.

(** X8.  Every stored entry has the form of a label, "Depressed" or
    "Not Depressed", followed by a number in brackets with a percent
    sign: runs keep that, so it holds after any session that starts
    fresh. *)
Theorem history_entries_keep_their_form :
  (forall s inputs,
     Forall entry_form (session_history s) ->
     Forall entry_form (session_history (fst (session s inputs)))) /\
  (forall inputs,
     Forall entry_form (session_history (fst (session fresh_session inputs)))).
Proof.
  assert (G : forall inputs s,
            Forall entry_form (session_history s) ->
            Forall entry_form (session_history (fst (session s inputs)))).
  { induction inputs as [| inp rest IH]; intros s H; [exact H|].
    cbn [session].
    specialize (IH (state_after (run s inp)) (run_keeps_entry_form s inp H)).
    destruct (session (state_after (run s inp)) rest) as [s' rs].
    exact IH. }
  split.
  - intros s inputs. apply G.
  - intros inputs. apply G. constructor.
Qed.

(** X9.  What a run stores depends on the uploaded file alone, not on
    the history, the clock or the slider.  So when the script runs again
    on the same upload, as it does when the slider is moved, the same
    entry is stored a second time. *)
Theorem rerun_stores_the_entry_again (s : session_state) (inp1 inp2 : run_input) :
  uploaded_file inp1 = uploaded_file inp2 ->
  decided (run s inp1) = true ->
  exists entry,
    session_history (state_after (run s inp1))
      = (session_history s ++ [entry])%list /\
    session_history (state_after (run (state_after (run s inp1)) inp2))
      = (session_history s ++ [entry; entry])%list /\
    forall s', session_history (state_after (run s' inp2))
               = (session_history s' ++ [entry])%list.
Proof.
  intros Hsame D.
  destruct (run_cases s inp1) as [(_ & C & _) | (file & raw & proba & score & Hf & Hc & Hs)].
  { unfold decided in D. rewrite C in D. discriminate D. }
  assert (Hf2 : uploaded_file inp2 = Some file) by (rewrite <- Hsame; exact Hf).
  assert (A : forall s' inp, uploaded_file inp = Some file ->
            session_history (state_after (run s' inp))
            = (session_history s' ++
               [if (raw =? 1)%Z
                then ("Depressed (" ++ float_repr score ++ "%)")%string
                else ("Not Depressed (" ++ float_repr (Py.sub 100 score) ++ "%)")%string])%list).
  { intros s' inp Hfi.
    destruct (run_classified_view s' inp file raw proba score Hfi Hc Hs)
      as (_ & _ & _ & _ & V5 & _).
    unfold session_history at 1. rewrite V5. reflexivity. }
  eexists. split; [apply A; exact Hf|].
  split; [|intros s'; apply A; exact Hf2].
  rewrite (A _ inp2 Hf2), (A s inp1 Hf), <- app_assoc. reflexivity.
Qed.

(** ** The mood section and the picture *)

(** X10.  For every position of the slider the mood section shows the
    slider and exactly one message, and leaves the history alone.
    Balloons go up exactly at 4 and 5, snow falls exactly at anything
    other than 3, 4 and 5 (the "error" messages), and never both. *)
Theorem mood_feedback_by_rating (rating : Z) (h : list string) :
  let out := mood_events rating in
  mood_rating rating h = (out, h, Py.Ok tt) /\
  hd_error out = Some (Slider 1 5) /\
  List.length (message_kinds out) = 1%nat /\
  (In Balloons out <-> rating = 4%Z \/ rating = 5%Z) /\
  (In Snow out <-> rating <> 3%Z /\ rating <> 4%Z /\ rating <> 5%Z) /\
  (In Snow out <-> message_kinds out = ["error"]) /\
  ~ (In Balloons out /\ In Snow out).
Proof.
  intros out. split; [apply mood_rating_spec|].
  unfold out, mood_events, mood_rating.
  destruct (Z.eqb_spec rating 5) as [E5 | N5];
    [|destruct (Z.eqb_spec rating 4) as [E4 | N4];
      [|destruct (Z.eqb_spec rating 3) as [E3 | N3];
        [|destruct (Z.eqb_spec rating 2) as [E2 | N2]]]];
    cbn; repeat split; try reflexivity; unfold not; intros;
    repeat match goal with
           | H : _ \/ _ |- _ => destruct H
           | H : _ /\ _ |- _ => destruct H
           | H : False |- _ => destruct H
           end;
    try discriminate; try lia; auto.
Qed.

Lemma mood_events_no_decision (rating : Z) :
  shown_images (mood_events rating) = [] /\
  shown_headings (mood_events rating) = [].
Proof.
  unfold mood_events, mood_rating.
  destruct (rating =? 5)%Z; [split; reflexivity|].
  destruct (rating =? 4)%Z; [split; reflexivity|].
  destruct (rating =? 3)%Z; [split; reflexivity|].
  destruct (rating =? 2)%Z; split; reflexivity.
Qed.

Lemma writes_show_nothing_else (ls : list string) :
  shown_images (map StWrite ls) = [] /\ shown_headings (map StWrite ls) = [].
Proof.
  induction ls as [| l rest [A B]]; [split; reflexivity | split; assumption].
Qed.

(** X11.  In a run that decides, one label runs through everything: the
    report names it, the stored entry begins with it, and the heading of
    the result, the note of the report and the picture of the bear are
    the ones for that label. *)
Theorem one_label_everywhere (s : session_state) (inp : run_input)
    (file : upload) (raw : Z) (proba : list Q) (score : Q) :
  uploaded_file inp = Some file ->
  classified file raw proba ->
  confidence_score proba = Py.Ok score ->
  let r := run s inp in
  let label := result_label raw in
  let depressed := String.eqb label "Depressed" in
  exists pdf entry c,
    offered_reports (page r) = [pdf] /\
    nth_error pdf 2 = Some ("Prediction Result: " ++ label) /\
    nth_error pdf 4
      = Some ("Note:" ++ newline ++
              if depressed
              then "Please consult a professional if this is a real concern."
              else "Voice sounds healthy. Keep monitoring regularly.") /\
    session_history (state_after r) = (session_history s ++ [entry])%list /\
    entry = label ++ " (" ++ float_repr c ++ "%)" /\
    shown_headings (page r)
      = [if depressed then "⚠️ Depression Detected"
         else "✅ No Depression Detected"] /\
    shown_images (page r)
      = [if depressed then "sad_teddy.png" else "happy_teddy.png"].
Proof.
  intros Hf Hc Hs r label depressed.
  destruct (run_classified_page s inp file raw proba score Hf Hc Hs)
    as (y & sr & m & _ & _ & Hrun).
  cbv zeta in Hrun. unfold r. rewrite Hrun.
  cbn [page state_after history session_history].
  set (h' := (session_history s ++ _)%list).
  destruct (writes_show_nothing_else (numbered_newest_first h')) as [W1 W2].
  destruct (mood_events_no_decision (rating inp)) as [M1 M2].
  unfold shown_images, shown_headings, offered_reports in *.
  rewrite !flat_map_app. cbn [flat_map]. rewrite W1, W2, M1, M2.
  assert (P : flat_map (fun e => match e with
                                 | DownloadButton _ pdf => [pdf]
                                 | _ => []
                                 end) (map StWrite (numbered_newest_first h')) = []).
  { destruct (writes_carry_no_decision (numbered_newest_first h')) as (_ & _ & P & _).
    exact P. }
  assert (Q0 : flat_map (fun e => match e with
                                  | DownloadButton _ pdf => [pdf]
                                  | _ => []
                                  end) (mood_events (rating inp)) = []).
  { destruct (plain_carries_nothing _ (mood_events_plain (rating inp)))
      as (_ & _ & Q0 & _). exact Q0. }
  rewrite P, Q0.
  unfold h', depressed, label, result_label.
  destruct (raw =? 1)%Z.
  - eexists _, _, score. cbn. repeat split; reflexivity.
  - eexists _, _, (Py.sub 100 score). cbn. repeat split; reflexivity.
Qed.

(** ** The confidence and its complement *)

(** C1.  When the classifier returns two or more probabilities, the
    confidence of the decision is [round(proba[1] * 100, 2)] and the
    report carries it.  With label "Depressed" the page and the history
    carry it too; with label "Not Depressed" they carry the float
    [100 - confidence].  For a probability between 0 and 1 the confidence
    is the double of a whole number of hundredths within half a
    hundredth (and the rounding of the product) of the percentage, and
    the float complement is the exact one up to one rounding.  For
    probabilities [0.7, 0.3] and raw label 0 the page shows 70. *)
Theorem binary_confidence_and_complement (s : session_state) (inp : run_input)
    (file : upload) (raw : Z) (p0 p1 : Q) (tl : list Q) :
  uploaded_file inp = Some file ->
  classified file raw (p0 :: p1 :: tl) ->
  let score := Py.round (Py.mul p1 100) 2 in
  let r := run s inp in
  confidence_score (p0 :: p1 :: tl) = Py.Ok score /\
  offered_reports (page r)
    = [snd (generate_pdf_report (now inp) (result_label raw) score)] /\
  (raw = 1%Z ->
     shown_confidence (page r) = [score] /\
     history (state_after r)
       = Some (session_history s
               ++ [("Depressed (" ++ float_repr score ++ "%)")%string])%list) /\
  (raw <> 1%Z ->
     shown_confidence (page r) = [Py.sub 100 score] /\
     history (state_after r)
       = Some (session_history s
               ++ [("Not Depressed (" ++ float_repr (Py.sub 100 score)
                    ++ "%)")%string])%list) /\
  (0 <= p1 <= 1 ->
     (exists k : Z,
        (0 <= k <= 10000)%Z /\
        score == Py.double (inject_Z k / 100) /\
        Qabs (inject_Z k / 100 - p1 * 100) <= (1 # 200) + 2 ^ (-45)) /\
     Qabs (Py.sub 100 score - (100 - score)) <= 2 ^ (-47)) /\
  (p1 == Py.double (3 # 10) -> Py.sub 100 score == 70).
Proof.
  intros Hf Hc score r.
  pose proof (run_classified_view s inp file raw _ score Hf Hc
                (confidence_score_binary p0 p1 tl)) as V.
  cbv zeta in V. fold r in V.
  destruct V as (V1 & _ & V3 & _ & V5 & _).
  split; [reflexivity|].
  split; [exact V3|].
  split; [|split; [|split]].
  - intros E. apply Z.eqb_eq in E. rewrite E in V1, V5. split; assumption.
  - intros N. apply Z.eqb_neq in N. rewrite N in V1, V5. split; assumption.
  - intros Hp.
    pose proof (mul_percent p1 Hp) as Hx.
    pose proof (mul_error p1 Hp) as Ex.
    destruct (round2_near (Py.mul p1 100) Hx) as (k & Hk & Hs & Hn & _).
    split.
    + exists k. split; [exact Hk|]. split; [exact Hs|].
      apply Qabs_Qle_condition in Ex. apply Qabs_Qle_condition in Hn.
      assert (P45 : 2 ^ (-45) == 1 # 35184372088832) by reflexivity.
      assert (P46 : 2 ^ (-46) == 1 # 70368744177664) by reflexivity.
      assert (P47 : 2 ^ (-47) == 1 # 140737488355328) by reflexivity.
      rewrite P46 in Hn. rewrite P47 in Ex. rewrite P45.
      set (x := Py.mul p1 100) in *. set (c := inject_Z k / 100) in *.
      apply Qabs_Qle_condition. split; lra.
    + apply sub_error. apply round2_percent. exact Hx.
  - intros E. unfold score, Py.sub.
    apply (Qeq_trans _ (Py.double (100 - Py.round (Py.mul (Py.double (3 # 10)) 100) 2)));
      [|reflexivity].
    apply double_comp.
    rewrite (round_comp (Py.mul p1 100) (Py.mul (Py.double (3 # 10)) 100) 2);
      [reflexivity|].
    unfold Py.mul. apply double_comp. rewrite E. reflexivity.
Qed.

(** C4 (amended).  With two or more probabilities, the one at index 1
    between 0 and 1, and label "Not Depressed", the report is rendered
    from the confidence itself while the page and the history carry the
    float [100 - confidence].  What the page shows is the exact
    complement up to the rounding of that subtraction, so the page and
    the report differ by 100 minus twice the confidence up to [2^-47],
    and they agree only when the confidence is 50 up to [2^-48]. *)
Theorem report_confidence_is_not_complemented (s : session_state)
    (inp : run_input) (file : upload) (raw : Z) (p0 p1 : Q) (tl : list Q) :
  uploaded_file inp = Some file ->
  classified file raw (p0 :: p1 :: tl) ->
  raw <> 1%Z ->
  0 <= p1 <= 1 ->
  let score := Py.round (Py.mul p1 100) 2 in
  let r := run s inp in
  exists pdf shown,
    offered_reports (page r) = [pdf] /\
    pdf = snd (generate_pdf_report (now inp) "Not Depressed" score) /\
    In ("Prediction Result: Not Depressed")%string pdf /\
    In ("Confidence Score: " ++ float_repr score ++ "%")%string pdf /\
    shown_confidence (page r) = [shown] /\
    shown = Py.sub 100 score /\
    history (state_after r)
      = Some (session_history s
              ++ [("Not Depressed (" ++ float_repr shown ++ "%)")%string])%list /\
    Qabs ((shown - score) - (100 - 2 * score)) <= 2 ^ (-47) /\
    (score == 50 -> shown == score) /\
    (shown == score -> Qabs (score - 50) <= 2 ^ (-48)).
Proof.
  intros Hf Hc N Hp score r.
  pose proof (run_classified_view s inp file raw _ score Hf Hc
                (confidence_score_binary p0 p1 tl)) as V.
  cbv zeta in V. fold r in V.
  destruct V as (V1 & _ & V3 & _ & V5 & _).
  assert (L : result_label raw = "Not Depressed").
  { unfold result_label. apply Z.eqb_neq in N. rewrite N. reflexivity. }
  apply Z.eqb_neq in N. rewrite N in V1, V5. rewrite L in V3.
  assert (Hs : 0 <= score <= 100).
  { apply round2_percent. apply mul_percent. exact Hp. }
  pose proof (sub_error score Hs) as Err.
  exists (snd (generate_pdf_report (now inp) "Not Depressed" score)),
         (Py.sub 100 score).
  split; [exact V3|]. split; [reflexivity|].
  split; [cbn; auto|]. split; [cbn; auto|].
  split; [exact V1|]. split; [reflexivity|]. split; [exact V5|].
  assert (P47 : 2 ^ (-47) == 1 # 140737488355328) by reflexivity.
  assert (P48 : 2 ^ (-48) == 1 # 281474976710656) by reflexivity.
  apply Qabs_Qle_condition in Err. rewrite P47 in Err.
  set (shown := Py.sub 100 score) in *.
  split; [|split].
  - rewrite P47. apply Qabs_Qle_condition. split; lra.
  - intros E. unfold shown, Py.sub.
    rewrite (double_comp (100 - score) 50) by (rewrite E; reflexivity).
    rewrite E. reflexivity.
  - intros E. rewrite P48. apply Qabs_Qle_condition. split; lra.
Qed.

(** ** Advisory text at the two places *)

(** C3 (amended).  At each of the two places the advisory text depends
    on the label alone: on the page it is the same for every confidence
    and every history, in the report for every confidence and every
    clock reading.  For "Depressed" the page and the report carry the
    same text; for "Not Depressed" the page says "The voice sounds
    healthy and normal." and the report "Voice sounds healthy. Keep
    monitoring regularly." *)
Theorem advisory_text_by_label (raw : Z) :
  (forall score h,
     shown_advice (fst (fst (result_display raw score h)))
     = [if (raw =? 1)%Z
        then "Please consult a professional if this is a real concern."
        else "The voice sounds healthy and normal."]) /\
  (forall now confidence,
     nth_error (snd (generate_pdf_report now (result_label raw) confidence)) 4
     = Some ("Note:" ++ newline ++
             if (raw =? 1)%Z
             then "Please consult a professional if this is a real concern."
             else "Voice sounds healthy. Keep monitoring regularly.")) /\
  (forall label now now' confidence confidence',
     nth_error (snd (generate_pdf_report now label confidence)) 4
     = nth_error (snd (generate_pdf_report now' label confidence')) 4) /\
  display_advice raw
    = [if (raw =? 1)%Z
       then "Please consult a professional if this is a real concern."
       else "The voice sounds healthy and normal."] /\
  report_advice (result_label raw)
    = [if (raw =? 1)%Z
       then "Please consult a professional if this is a real concern."
       else "Voice sounds healthy. Keep monitoring regularly."] /\
  (display_advice raw = report_advice (result_label raw) <-> raw = 1%Z).
Proof.
  split; [|split; [|split]].
  - intros score h. rewrite result_display_spec.
    destruct (raw =? 1)%Z; reflexivity.
  - intros now0 confidence. unfold result_label.
    destruct (raw =? 1)%Z; reflexivity.
  - intros label now0 now1 c c'. reflexivity.
  - unfold display_advice, report_advice, result_label.
    rewrite result_display_spec.
    destruct (Z.eqb_spec raw 1) as [E | N]; cbn.
    + repeat split; auto.
    + repeat split; auto; [discriminate | contradiction].
Qed.

(** ** The window handed to the analysis *)

(** C6.  For every clip that decodes, feature extraction loads at the
    clip's own sample rate the samples from half a second in, three
    seconds of them or as many as there are, hands that buffer and that
    rate to the analysis and returns them; it can fail in the analysis
    only, never in loading.  A five-second clip at 22050 Hz gives a
    buffer of 66150 samples, and a clip shorter than three and a half
    seconds gives all its samples after the first half second. *)
Theorem extract_features_loads_window (c : clip) (h : list string) :
  let sr := clip_sr c in
  let offset := Z.to_nat (sr / 2) in
  let window := Z.to_nat (3 * sr) in
  let y := firstn window (skipn offset (clip_samples c)) in
  Librosa.load (Wav c) (1 # 2) 3 = Py.Ok (y, sr) /\
  extract_features (Wav c) h
    = match mfcc y sr 13 with
      | Py.Ok m => ([], h, Py.Ok (Some ([map Py.mean m], y, sr)))
      | Py.Raise exc => ([StError ("Audio Error: " ++ exc)], h, Py.Ok None)
      end /\
  (forall exc, extraction_fails (Wav c) exc -> mfcc y sr 13 = Py.Raise exc) /\
  List.length y = Nat.min window (List.length (clip_samples c) - offset) /\
  (sr = 22050%Z ->
   List.length (clip_samples c) = Z.to_nat (5 * 22050) ->
   List.length y = Z.to_nat 66150) /\
  ((List.length (clip_samples c) <= offset + window)%nat ->
   y = skipn offset (clip_samples c)).
Proof.
  intros sr offset window y.
  assert (Hl : Librosa.load (Wav c) (1 # 2) 3 = Py.Ok (y, sr)).
  { unfold Librosa.load. change 3 with (inject_Z 3).
    rewrite frames_whole, frames_half. reflexivity. }
  assert (L : List.length y = Nat.min window (List.length (clip_samples c) - offset)).
  { unfold y. rewrite length_firstn, length_skipn. reflexivity. }
  split; [exact Hl|]. split; [|split; [|split; [exact L | split]]].
  - unfold extract_features. rewrite Hl. cbn [Py.bind].
    destruct (mfcc y sr 13); reflexivity.
  - intros exc [F | (y' & sr' & F & Hm)]; rewrite Hl in F.
    + discriminate F.
    + injection F as <- <-. exact Hm.
  - intros Hsr Hlen. rewrite L, Hlen. unfold window, offset. rewrite Hsr.
    reflexivity.
  - intros Hshort. apply firstn_all2. rewrite length_skipn. lia.
Qed.

(** ** Decisions in the history *)

Lemma entries_of_length (plan : list (option (Z * Q))) :
  List.length (entries_of plan) = List.length (filter is_decision plan).
Proof.
  induction plan as [| [[raw score] |] rest IH]; [reflexivity | |].
  - cbn. f_equal. exact IH.
  - exact IH.
Qed.

Lemma run_of_decision (s : session_state) (inp : run_input) (raw : Z) (score : Q) :
  decision_of inp (Some (raw, score)) ->
  let r := run s inp in
  decided r = true /\
  session_history (state_after r)
    = (session_history s ++ [stored_entry raw score])%list /\
  written_lines (page r)
    = numbered_newest_first (session_history s ++ [stored_entry raw score]) /\
  outcome r = Py.Ok tt.
Proof.
  intros (file & proba & Hf & Hc & Hs) r.
  destruct (run_classified_view s inp file raw proba score Hf Hc Hs)
    as (V1 & _ & _ & V4 & V5 & V6).
  fold r in V1, V4, V5, V6.
  unfold decided, session_history at 1. rewrite V1, V5.
  repeat split; assumption.
Qed.

Lemma run_of_no_decision (s : session_state) (inp : run_input) :
  decision_of inp None ->
  let r := run s inp in
  decided r = false /\
  session_history (state_after r) = session_history s /\
  written_lines (page r) = [].
Proof.
  intros N r.
  destruct (run_cases s inp) as [(H & C & W) | D]; [|contradiction N; exact D].
  fold r in H, C, W. unfold decided, session_history at 1. rewrite H, C.
  repeat split. exact W.
Qed.

Lemma session_follows_plan (inputs : list run_input)
    (plan : list (option (Z * Q))) (s : session_state) :
  Forall2 decision_of inputs plan ->
  session_history (fst (session s inputs))
    = (session_history s ++ entries_of plan)%list /\
  map decided (snd (session s inputs)) = map is_decision plan.
Proof.
  intros F. revert s. induction F as [| inp d inputs plan Hd _ IH]; intros s.
  - cbn. rewrite app_nil_r. split; reflexivity.
  - cbn [session].
    destruct (IH (state_after (run s inp))) as [Hh Hm].
    destruct (session (state_after (run s inp)) inputs) as [s' rs].
    cbn [fst snd map] in *.
    destruct d as [[raw score] |].
    + destruct (run_of_decision s inp raw score Hd) as (D & Happ & _).
      rewrite Hh, Happ, D, Hm, <- app_assoc. split; reflexivity.
    + destruct (run_of_no_decision s inp Hd) as (D & Hsame & _).
      rewrite Hh, Hsame, D, Hm. split; reflexivity.
Qed.

Lemma decision_exists (inp : run_input) : exists d, decision_of inp d.
Proof.
  destruct (run_cases fresh_session inp)
    as [(_ & C & _) | (file & raw & proba & score & Hf & Hc & Hs)].
  - exists None. intros (file & raw & proba & score & Hf & Hc & Hs).
    destruct (run_classified_view fresh_session inp file raw proba score Hf Hc Hs)
      as (V1 & _).
    rewrite V1 in C. discriminate C.
  - exists (Some (raw, score)), file, proba. repeat split; assumption.
Qed.

(** Every session has its sequence of decisions. *)
Lemma plan_exists (inputs : list run_input) :
  exists plan, Forall2 decision_of inputs plan.
Proof.
  induction inputs as [| inp rest [plan IH]].
  - exists []. constructor.
  - destruct (decision_exists inp) as [d Hd].
    exists (d :: plan). constructor; assumption.
Qed.

(** C8.  Take a session that starts fresh and, for each run, what there
    is to decide in it, read off its input: a label and a confidence
    when the upload is classified, nothing otherwise.  Then the stored
    history is exactly the entries of the decisions, one for each and in
    the order of the runs, the newest last.  Each run with a decision
    adds its entry at the end, whatever the history was, and writes the
    stored list newest first, numbered from 1, while the stored list
    keeps insertion order; a run without a decision leaves the history
    as it was and writes no line. *)
Theorem history_counts_and_keeps_order (inputs : list run_input)
    (plan : list (option (Z * Q))) :
  Forall2 decision_of inputs plan ->
  let final := fst (session fresh_session inputs) in
  let runs := snd (session fresh_session inputs) in
  session_history final = entries_of plan /\
  List.length (session_history final) = List.length (filter is_decision plan) /\
  map decided runs = map is_decision plan /\
  (forall s inp raw score,
     decision_of inp (Some (raw, score)) ->
     let r := run s inp in
     session_history (state_after r)
       = (session_history s ++ [stored_entry raw score])%list /\
     written_lines (page r)
       = map (fun '(i, e) => str_nat (i + 1) ++ ". " ++ e)
             (Py.enumerate (rev (session_history (state_after r))))) /\
  (forall s inp,
     decision_of inp None ->
     let r := run s inp in
     session_history (state_after r) = session_history s /\
     written_lines (page r) = []) /\
  (forall s inputs',
     exists added,
       session_history (fst (session s inputs'))
         = (session_history s ++ added)%list /\
       List.length added
         = List.length (filter decided (snd (session s inputs')))).
Proof.
  intros F final runs.
  destruct (session_follows_plan inputs plan fresh_session F) as [Hh Hm].
  fold final in Hh. fold runs in Hm. cbn [session_history fresh_session history app] in Hh.
  split; [exact Hh|].
  split; [rewrite Hh; apply entries_of_length|].
  split; [exact Hm|].
  split; [|split].
  - intros s inp raw score Hd r.
    destruct (run_of_decision s inp raw score Hd) as (_ & Happ & W & _).
    fold r in Happ, W. split; [exact Happ|].
    rewrite Happ. exact W.
  - intros s inp Hd r.
    destruct (run_of_no_decision s inp Hd) as (_ & Hsame & W).
    split; assumption.
  - intros s inputs'. apply session_appends.
Qed.

(** ** Failures outside the script *)

Lemma run_in_reliable (s : session_state) (inp : run_input) :
  run s inp = run_in reliable s inp.
Proof. reflexivity. Qed.

Lemma report_step_unfold (env : environment) (clock label : string) (score : Q) :
  (let '(report_path, pdf) := generate_pdf_report clock label score in
   lift (env_pdf_output env report_path pdf) ;;;
   lift (env_open env report_path) ;;;
   emit (DownloadButton "depression_report.pdf" pdf))
  = (lift (env_pdf_output env "depression_report.pdf"
             (snd (generate_pdf_report clock label score))) ;;;
     lift (env_open env "depression_report.pdf") ;;;
     emit (DownloadButton "depression_report.pdf"
             (snd (generate_pdf_report clock label score)))).
Proof. reflexivity. Qed.

(** X3.  When the audio is fine and the classifier raises, in [predict]
    or, after [predict] has answered, in [predict_proba], the run ends
    on that exception.  Up to then it has shown the player and the two
    plots and made the calls in that order; it shows no result, offers
    no report, writes no history line and leaves the stored history as
    it was. *)
Theorem classifier_exception_leaves_no_decision (env : environment)
    (s : session_state) (inp : run_input) (file : upload)
    (y : list Q) (sr : Z) (m : list (list Q)) (exc : string) :
  uploaded_file inp = Some file ->
  Librosa.load file (1 # 2) 3 = Py.Ok (y, sr) ->
  mfcc y sr 13 = Py.Ok m ->
  let x := [map Py.mean m] in
  (env_predict env x = Py.Raise exc \/
   (exists prediction, env_predict env x = Py.Ok prediction) /\
   env_predict_proba env x = Py.Raise exc) ->
  let r := run_in env s inp in
  outcome r = Py.Raise exc /\
  (page r = [Audio file; WaveformPlot y; MelSpectrogramPlot y sr; Predict x] \/
   page r = [Audio file; WaveformPlot y; MelSpectrogramPlot y sr;
             Predict x; PredictProba x]) /\
  shown_confidence (page r) = [] /\
  offered_reports (page r) = [] /\
  written_lines (page r) = [] /\
  history (state_after r) = Some (session_history s).
Proof.
  intros Hf Hl Hm x Hbad r. unfold r, run_in, prediction_block_in. rewrite Hf.
  destruct Hbad as [Hp | [[prediction Hp] Hpp]].
  - erewrite seq_ok; [|reflexivity|].
    2:{ script_step ltac:(apply (extract_features_ok _ _ _ _ _ Hl Hm)).
        do 3 script_step ltac:(reflexivity).
        cbv beta iota. apply seq_raise. unfold lift. fold x. rewrite Hp.
        reflexivity. }
    cbn. repeat split. left. reflexivity.
  - erewrite seq_ok; [|reflexivity|].
    2:{ script_step ltac:(apply (extract_features_ok _ _ _ _ _ Hl Hm)).
        do 3 script_step ltac:(reflexivity).
        script_step ltac:(unfold lift; fold x; rewrite Hp; reflexivity).
        script_step ltac:(reflexivity).
        cbv beta iota. apply seq_raise. unfold lift. fold x. rewrite Hpp.
        reflexivity. }
    cbn. repeat split. right. reflexivity.
Qed.

(** X4.  When the audio is fine, the classifier has answered and the
    confidence is computed, but the report cannot be written to its
    file or the file cannot be opened again, the run ends on that
    exception after the decision: the result is on the page and its
    entry is in the stored history, but no report is offered, no history
    line is written and no picture is shown. *)
Theorem report_failure_keeps_the_decision (env : environment)
    (s : session_state) (inp : run_input) (file : upload)
    (y : list Q) (sr : Z) (m : list (list Q))
    (raw : Z) (rest : list Z) (proba : list Q) (rest' : list (list Q))
    (score : Q) (exc : string) :
  uploaded_file inp = Some file ->
  Librosa.load file (1 # 2) 3 = Py.Ok (y, sr) ->
  mfcc y sr 13 = Py.Ok m ->
  let x := [map Py.mean m] in
  env_predict env x = Py.Ok (raw :: rest) ->
  env_predict_proba env x = Py.Ok (proba :: rest') ->
  confidence_score proba = Py.Ok score ->
  let pdf := snd (generate_pdf_report (now inp) (result_label raw) score) in
  (env_pdf_output env "depression_report.pdf" pdf = Py.Raise exc \/
   env_pdf_output env "depression_report.pdf" pdf = Py.Ok tt /\
   env_open env "depression_report.pdf" = Py.Raise exc) ->
  let r := run_in env s inp in
  outcome r = Py.Raise exc /\
  shown_confidence (page r) = [if (raw =? 1)%Z then score else Py.sub 100 score] /\
  history (state_after r)
    = Some (session_history s ++ [stored_entry raw score])%list /\
  offered_reports (page r) = [] /\
  written_lines (page r) = [] /\
  shown_images (page r) = [].
Proof.
  intros Hf Hl Hm x Hp Hpp Hc pdf Hbad r.
  assert (R :
    run_in env s inp
    = {| state_after :=
           {| history := Some (session_history s ++ [stored_entry raw score])%list |};
         page := [Audio file; WaveformPlot y; MelSpectrogramPlot y sr;
                  Predict x; PredictProba x;
                  if (raw =? 1)%Z
                  then ResultCard "⚠️ Depression Detected"
                         "Please consult a professional if this is a real concern."
                         score
                  else ResultCard "✅ No Depression Detected"
                         "The voice sounds healthy and normal."
                         (Py.sub 100 score)];
         outcome := Py.Raise exc |}).
  { unfold run_in, prediction_block_in. rewrite Hf.
    erewrite seq_ok; [|reflexivity|].
    2:{ script_step ltac:(apply (extract_features_ok _ _ _ _ _ Hl Hm)).
        do 3 script_step ltac:(reflexivity).
        script_step ltac:(unfold lift; fold x; rewrite Hp; reflexivity).
        script_step ltac:(reflexivity).
        script_step ltac:(unfold lift; fold x; rewrite Hpp; reflexivity).
        script_step ltac:(reflexivity).
        script_step ltac:(unfold lift; rewrite Hc; reflexivity).
        script_step ltac:(reflexivity).
        script_step ltac:(apply result_display_spec).
        cbv beta iota. apply seq_raise.
        rewrite report_step_unfold. fold pdf.
        destruct Hbad as [Ho | [Ho Hopen]].
        - apply seq_raise. unfold lift. rewrite Ho. reflexivity.
        - erewrite seq_ok; [|unfold lift; rewrite Ho; reflexivity|].
          2:{ cbv beta. apply seq_raise. unfold lift. rewrite Hopen. reflexivity. }
          reflexivity. }
    unfold stored_entry. destruct (raw =? 1)%Z; reflexivity. }
  unfold r. rewrite R.
  cbn [page state_after outcome history].
  destruct (raw =? 1)%Z; repeat split; reflexivity.
Qed.

End App.

(** ** The scenarios of the specification, run *)

Import Scenario.

Lemma slow_clip_classified (raw : Z) (proba : list Q) :
  classified stub_mfcc (constant_predict raw) (constant_predict_proba proba)
    (Wav slow_clip) raw proba.
Proof.
  unfold classified. do 5 eexists. repeat split; reflexivity.
Defined.

Lemma stub_mfcc_rows (y : list Q) (sr : Z) (n : nat) (m : list (list Q)) :
  stub_mfcc y sr n = Py.Ok m -> List.length m = n.
Proof.
  destruct y as [| a rest]; [discriminate|].
  intros E. injection E as <-. apply repeat_length.
Defined.

(** Scenario A: probabilities [0.2, 0.8] and raw label 1. *)
Example scenario_a :
  let r := run float_str stub_mfcc (constant_predict 1)
             (constant_predict_proba [2 # 10; 8 # 10])
             fresh_session (upload_of slow_clip) in
  history (state_after r) = Some ["Depressed (80.0%)"] /\
  written_lines (page r) = ["1. Depressed (80.0%)"].
Proof. split; vm_compute; reflexivity. Qed.

(** C2.  A single probability [0.95] with raw label 0: the page and the
    history say "Not Depressed" with 5, the complement, and the report
    says "Not Depressed" with 95. *)
Theorem single_probability_not_depressed_shows_complement :
  let r := run float_str stub_mfcc (constant_predict 0)
             (constant_predict_proba [95 # 100])
             fresh_session (upload_of slow_clip) in
  exists shown pdf,
    shown_confidence (page r) = [shown] /\ shown == 5 /\
    history (state_after r) = Some ["Not Depressed (5.0%)"] /\
    offered_reports (page r) = [pdf] /\
    In "Prediction Result: Not Depressed" pdf /\
    In "Confidence Score: 95.0%" pdf.
Proof.
  cbv zeta. do 2 eexists.
  split; [vm_compute; reflexivity|].
  split; [reflexivity|].
  split; [vm_compute; reflexivity|].
  split; [vm_compute; reflexivity|].
  split; cbn; auto.
Qed.

(** The two advisory texts for "Not Depressed": the display and
    the report carry different advisory texts. *)
Lemma advisory_text_differs_for_not_depressed :
  display_advice float_str 0 = ["The voice sounds healthy and normal."] /\
  report_advice float_str (result_label 0)
    = ["Voice sounds healthy. Keep monitoring regularly."] /\
  display_advice float_str 0 <> report_advice float_str (result_label 0).
Proof.
  split; [reflexivity|]. split; [reflexivity|].
  vm_compute. discriminate.
Qed.

(** Scenario A, the features: the stand-in analysis on the slow clip. *)
Lemma feature_vector_is_13_means_witness :
  exists v y sr,
    extract_features stub_mfcc (Wav slow_clip) []
      = ([], [], Py.Ok (Some ([v], y, sr))) /\
    List.length v = 13%nat.
Proof.
  assert (E : extract_features stub_mfcc (Wav slow_clip) []
              = ([], [], Py.Ok (Some
                  ([map Py.mean (repeat (firstn 12 (skipn 2 (clip_samples slow_clip))) 13)],
                   firstn 12 (skipn 2 (clip_samples slow_clip)), 4%Z))))
    by reflexivity.
  destruct (feature_vector_is_13_means stub_mfcc (Wav slow_clip) [] [] [] _ _ _
              stub_mfcc_rows E) as (m & v & _ & _ & Hx & Hlen & _).
  exists v, (firstn 12 (skipn 2 (clip_samples slow_clip))), 4%Z.
  split; [rewrite E, Hx; reflexivity | exact Hlen].
Defined.

(** Scenario D: a clip with nothing after the offset. *)
Lemma extraction_failure_stops_before_classifier_witness :
  let r := run float_str stub_mfcc (constant_predict 1)
             (constant_predict_proba [2 # 10; 8 # 10])
             fresh_session (upload_of short_clip) in
  page r = [Audio (Wav short_clip); StError "Audio Error: empty signal"] /\
  history (state_after r) = Some [].
Proof.
  cbv zeta.
  destruct (extraction_failure_stops_before_classifier float_str stub_mfcc
              (constant_predict 1) (constant_predict_proba [2 # 10; 8 # 10])
              fresh_session (upload_of short_clip) (Wav short_clip)
              "empty signal" eq_refl)
    as (Hpage & _ & _ & _ & _ & Hhist & _).
  - right. exists [], 4%Z. split; reflexivity.
  - split; [exact Hpage | exact Hhist].
Defined.

(** Scenario C, the range: a single probability [0.95] and raw label 0. *)
Lemma confidence_percent_in_range_witness :
  let r := run float_str stub_mfcc (constant_predict 0)
             (constant_predict_proba [95 # 100])
             fresh_session (upload_of slow_clip) in
  exists shown, shown_confidence (page r) = [shown] /\ 0 <= shown <= 100.
Proof.
  cbv zeta.
  destruct (confidence_percent_in_range float_str stub_mfcc
              (constant_predict 0) (constant_predict_proba [95 # 100])
              fresh_session (upload_of slow_clip) (Wav slow_clip) 0 [95 # 100]
              eq_refl (slow_clip_classified _ _))
    as (score & shown & _ & _ & Hshown & Hrange).
  - cbn. lia.
  - constructor; [|constructor]. split; unfold Qle; cbn; lia.
  - exists shown. split; assumption.
Defined.

(** ** Further runs of the scenarios *)

(** A classifier that returns an empty row of probabilities: the run
    stops on the exception and the fresh history stays empty. *)
Lemma unusable_classifier_answer_raises_witness :
  let r := run float_str stub_mfcc (constant_predict 0)
             (constant_predict_proba []) fresh_session (upload_of slow_clip) in
  (exists exc, outcome r = Py.Raise exc) /\
  shown_confidence (page r) = [] /\
  history (state_after r) = Some [].
Proof.
  cbv zeta.
  destruct (unusable_classifier_answer_raises float_str stub_mfcc
              (constant_predict 0) (constant_predict_proba [])
              fresh_session (upload_of slow_clip) (Wav slow_clip)
              (firstn 12 (skipn 2 (clip_samples slow_clip))) 4%Z
              (repeat (firstn 12 (skipn 2 (clip_samples slow_clip))) 13)
              eq_refl eq_refl eq_refl)
    as (Hexc & _ & Hshown & _ & _ & Hhist).
  - right. left. reflexivity.
  - split; [exact Hexc|]. split; [exact Hshown | exact Hhist].
Defined.


(** A second decision in a session that holds one entry: two lines, the
    new entry first. *)
Lemma history_lines_numbered_newest_first_witness :
  let r := run float_str stub_mfcc (constant_predict 1)
             (constant_predict_proba [2 # 10; 8 # 10])
             {| history := Some ["Not Depressed (5.0%)"] |}
             (upload_of slow_clip) in
  List.length (written_lines (page r)) = 2%nat /\
  hd_error (written_lines (page r)) = Some "1. Depressed (80.0%)".
Proof.
  cbv zeta.
  destruct (history_lines_numbered_newest_first float_str stub_mfcc
              (constant_predict 1) (constant_predict_proba [2 # 10; 8 # 10])
              {| history := Some ["Not Depressed (5.0%)"] |}
              (upload_of slow_clip) eq_refl)
    as (Hlen & _ & entry & Hstored & Hhd).
  split; [rewrite Hlen; reflexivity|].
  assert (L : ["Not Depressed (5.0%)"; "Depressed (80.0%)"]
              = ["Not Depressed (5.0%)"; entry]) by exact Hstored.
  injection L as <-. rewrite Hhd. reflexivity.
Defined.

(** The same upload run twice, the slider moved in between. *)
Lemma rerun_stores_the_entry_again_witness :
  let inp1 := upload_of slow_clip in
  let inp2 := {| uploaded_file := Some (Wav slow_clip);
                 now := "2024-05-01 10:31:00"; rating := 5 |} in
  let run' := run float_str stub_mfcc (constant_predict 1)
                (constant_predict_proba [2 # 10; 8 # 10]) in
  session_history (state_after (run' (state_after (run' fresh_session inp1)) inp2))
  = ["Depressed (80.0%)"; "Depressed (80.0%)"].
Proof.
  cbv zeta.
  destruct (rerun_stores_the_entry_again float_str stub_mfcc
              (constant_predict 1) (constant_predict_proba [2 # 10; 8 # 10])
              fresh_session (upload_of slow_clip)
              {| uploaded_file := Some (Wav slow_clip);
                 now := "2024-05-01 10:31:00"; rating := 5 |}
              eq_refl eq_refl)
    as (entry & H1 & H2 & _).
  rewrite H2.
  assert (E : entry = "Depressed (80.0%)").
  { assert (L : ["Depressed (80.0%)"] = [entry]) by exact H1.
    injection L as <-. reflexivity. }
  rewrite E. reflexivity.
Defined.

(** Scenario A: one label on the whole page. *)
Lemma one_label_everywhere_witness :
  let r := run float_str stub_mfcc (constant_predict 1)
             (constant_predict_proba [2 # 10; 8 # 10])
             fresh_session (upload_of slow_clip) in
  shown_headings (page r) = ["⚠️ Depression Detected"] /\
  shown_images (page r) = ["sad_teddy.png"] /\
  session_history (state_after r) = ["Depressed (80.0%)"].
Proof.
  cbv zeta.
  destruct (one_label_everywhere float_str stub_mfcc
              (constant_predict 1) (constant_predict_proba [2 # 10; 8 # 10])
              fresh_session (upload_of slow_clip) (Wav slow_clip) 1
              [2 # 10; 8 # 10] (Py.round ((8 # 10) * 100) 2)
              eq_refl (slow_clip_classified _ _) eq_refl)
    as (pdf & entry & c & _ & _ & _ & Hhist & _ & Hhead & Himg).
  split; [exact Hhead|]. split; [exact Himg|].
  reflexivity.
Defined.

(** ** The revised scenarios *)

(** Scenario B on doubles: probabilities [0.7, 0.3] and raw label 0. *)
Lemma binary_confidence_and_complement_witness :
  let r := run float_str stub_mfcc (constant_predict 0)
             (constant_predict_proba [Py.double (7 # 10); Py.double (3 # 10)])
             fresh_session (upload_of slow_clip) in
  exists shown,
    shown_confidence (page r) = [shown] /\ shown == 70 /\
    history (state_after r) = Some ["Not Depressed (70.0%)"].
Proof.
  cbv zeta.
  destruct (binary_confidence_and_complement float_str stub_mfcc
              (constant_predict 0)
              (constant_predict_proba [Py.double (7 # 10); Py.double (3 # 10)])
              fresh_session (upload_of slow_clip) (Wav slow_clip) 0
              (Py.double (7 # 10)) (Py.double (3 # 10)) []
              eq_refl (slow_clip_classified _ _))
    as (_ & _ & _ & Hnot & _ & H70).
  destruct Hnot as [Hshown Hhist]; [discriminate|].
  eexists. split; [exact Hshown|]. split; [apply H70; reflexivity|].
  rewrite Hhist. vm_compute. reflexivity.
Defined.

(** Probabilities [0.9196, 0.0804] and raw label 0: the report says
    8.04, the page shows the double next above 91.96, and the two do not
    differ by 100 minus twice 8.04. *)
Lemma complement_difference_is_not_exact :
  let proba := [Py.double (9196 # 10000); Py.double (804 # 10000)] in
  let r := run float_str stub_mfcc (constant_predict 0)
             (constant_predict_proba proba)
             fresh_session (upload_of slow_clip) in
  exists score shown pdf,
    confidence_score proba = Py.Ok score /\
    offered_reports (page r) = [pdf] /\
    In "Confidence Score: 8.04%" pdf /\
    shown_confidence (page r) = [shown] /\
    shown == 3235554857288991 # 35184372088832 /\
    ~ shown - score == 100 - 2 * score.
Proof.
  cbv zeta. do 3 eexists.
  split; [reflexivity|].
  split; [vm_compute; reflexivity|].
  split; [cbn; auto 10|].
  split; [vm_compute; reflexivity|].
  split; [reflexivity|].
  vm_compute. intros H. discriminate H.
Qed.

(** The same run, within the bound. *)
Lemma report_confidence_is_not_complemented_witness :
  let r := run float_str stub_mfcc (constant_predict 0)
             (constant_predict_proba
                [Py.double (9196 # 10000); Py.double (804 # 10000)])
             fresh_session (upload_of slow_clip) in
  exists pdf shown score,
    offered_reports (page r) = [pdf] /\
    In ("Confidence Score: " ++ float_str score ++ "%") pdf /\
    shown_confidence (page r) = [shown] /\
    Qabs ((shown - score) - (100 - 2 * score)) <= 2 ^ (-47).
Proof.
  cbv zeta.
  destruct (report_confidence_is_not_complemented float_str stub_mfcc
              (constant_predict 0)
              (constant_predict_proba
                 [Py.double (9196 # 10000); Py.double (804 # 10000)])
              fresh_session (upload_of slow_clip) (Wav slow_clip) 0
              (Py.double (9196 # 10000)) (Py.double (804 # 10000)) []
              eq_refl (slow_clip_classified _ _))
    as (pdf & shown & H1 & _ & _ & H4 & H5 & _ & _ & H8 & _).
  - discriminate.
  - split; apply Qle_bool_iff; vm_compute; reflexivity.
  - exists pdf, shown, (Py.round (Py.mul (Py.double (804 # 10000)) 100) 2).
    split; [exact H1|]. split; [exact H4|]. split; [exact H5 | exact H8].
Defined.

(** Scenario A, the loader: five seconds at 22050 Hz. *)
Lemma extract_features_loads_window_witness :
  exists x y,
    extract_features stub_mfcc (Wav five_seconds) []
      = ([], [], Py.Ok (Some (x, y, 22050%Z))) /\
    List.length y = Z.to_nat 66150.
Proof.
  destruct (extract_features_loads_window stub_mfcc five_seconds [])
    as (_ & He & _ & _ & H5 & _).
  cbv zeta in He, H5.
  specialize (H5 eq_refl (repeat_length _ _)).
  change (clip_sr five_seconds) with 22050%Z in He, H5.
  destruct (firstn (Z.to_nat (3 * 22050))
              (skipn (Z.to_nat (22050 / 2)) (clip_samples five_seconds)))
    as [| a rest] eqn:Ey.
  - discriminate H5.
  - exists [map Py.mean (repeat (a :: rest) 13)], (a :: rest).
    split; [exact He | exact H5].
Defined.

(** A session of three runs: a quiet clip, a clip that is too short, a
    loud clip.  Two entries are stored, in that order. *)
Lemma history_counts_and_keeps_order_witness :
  let session' := session float_str stub_mfcc threshold_predict
                    threshold_predict_proba fresh_session
                    [upload_of slow_clip; upload_of short_clip;
                     upload_of loud_clip] in
  session_history (fst session')
  = ["Not Depressed (70.0%)"; "Depressed (80.0%)"] /\
  map (decided) (snd session') = [true; false; true].
Proof.
  cbv zeta.
  destruct (history_counts_and_keeps_order float_str stub_mfcc
              threshold_predict threshold_predict_proba
              [upload_of slow_clip; upload_of short_clip; upload_of loud_clip]
              [Some (0%Z, Py.round (Py.mul (Py.double (3 # 10)) 100) 2);
               None;
               Some (1%Z, Py.round (Py.mul (Py.double (8 # 10)) 100) 2)])
    as (Hh & _ & Hd & _).
  - constructor; [|constructor; [|constructor; [|constructor]]].
    + exists (Wav slow_clip), [Py.double (7 # 10); Py.double (3 # 10)].
      split; [reflexivity|]. split; [|reflexivity].
      unfold classified. do 5 eexists. repeat split; reflexivity.
    + intros (file & raw & proba & score & Hf & (y & sr & m & rest & rest' & Hl & Hm & _) & _).
      injection Hf as <-. injection Hl as <- <-. discriminate Hm.
    + exists (Wav loud_clip), [Py.double (2 # 10); Py.double (8 # 10)].
      split; [reflexivity|]. split; [|reflexivity].
      unfold classified. do 5 eexists. repeat split; reflexivity.
  - split; [rewrite Hh; vm_compute; reflexivity | exact Hd].
Defined.

(** The classifier rejects the sample: the run ends on its exception and
    the fresh history stays empty. *)
Lemma classifier_exception_leaves_no_decision_witness :
  let r := run_in float_str stub_mfcc classifier_rejects fresh_session
             (upload_of slow_clip) in
  outcome r = Py.Raise "X has 13 features, but the model is expecting 40" /\
  shown_confidence (page r) = [] /\
  history (state_after r) = Some [].
Proof.
  cbv zeta.
  destruct (classifier_exception_leaves_no_decision float_str stub_mfcc
              classifier_rejects fresh_session (upload_of slow_clip)
              (Wav slow_clip)
              (firstn 12 (skipn 2 (clip_samples slow_clip))) 4%Z
              (repeat (firstn 12 (skipn 2 (clip_samples slow_clip))) 13)
              "X has 13 features, but the model is expecting 40"
              eq_refl eq_refl eq_refl)
    as (Hout & _ & Hshown & _ & _ & Hhist).
  - left. reflexivity.
  - split; [exact Hout|]. split; [exact Hshown | exact Hhist].
Defined.

(** The report's name is taken by a directory: the run ends on the
    exception with the result shown and stored. *)
Lemma report_failure_keeps_the_decision_witness :
  let r := run_in float_str stub_mfcc
             (report_is_a_directory 1 [Py.double (2 # 10); Py.double (8 # 10)])
             fresh_session (upload_of slow_clip) in
  outcome r = Py.Raise "Is a directory: 'depression_report.pdf'" /\
  history (state_after r) = Some ["Depressed (80.0%)"] /\
  offered_reports (page r) = [] /\
  written_lines (page r) = [].
Proof.
  cbv zeta.
  destruct (report_failure_keeps_the_decision float_str stub_mfcc
              (report_is_a_directory 1 [Py.double (2 # 10); Py.double (8 # 10)])
              fresh_session (upload_of slow_clip) (Wav slow_clip)
              (firstn 12 (skipn 2 (clip_samples slow_clip))) 4%Z
              (repeat (firstn 12 (skipn 2 (clip_samples slow_clip))) 13)
              1 [] [Py.double (2 # 10); Py.double (8 # 10)] []
              (Py.round (Py.mul (Py.double (8 # 10)) 100) 2)
              "Is a directory: 'depression_report.pdf'"
              eq_refl eq_refl eq_refl eq_refl eq_refl eq_refl)
    as (Hout & _ & Hhist & Hrep & Hlines & _).
  - left. reflexivity.
  - split; [exact Hout|]. split; [rewrite Hhist; vm_compute; reflexivity|].
    split; [exact Hrep | exact Hlines].
Defined.

(** ** The model and the machine's doubles *)

(** The doubles of the model are the doubles of the machine, ... *)
Example double_agrees_with_hardware :
  forallb (fun '(n, d) =>
             Qeq_bool (Float64.value (Float64.ratio n d))
                      (Py.double (inject_Z n / inject_Z d)))
          Float64.samples = true.
Proof. vm_compute. reflexivity. Qed.

(** ... the confidence of line 136 is the machine's, ... *)
Example confidence_agrees_with_hardware :
  forallb (fun '(n, d) =>
             Qeq_bool
               (Float64.value (Float64.confidence (Float64.ratio n d)))
               (Py.round (Py.mul (Py.double (inject_Z n / inject_Z d)) 100) 2))
          Float64.samples = true.
Proof. vm_compute. reflexivity. Qed.

(** ... and so is the complement of line 154. *)
Example complement_agrees_with_hardware :
  forallb (fun '(n, d) =>
             Qeq_bool
               (Float64.value
                  (Float64.complement (Float64.confidence (Float64.ratio n d))))
               (Py.sub 100
                  (Py.round (Py.mul (Py.double (inject_Z n / inject_Z d)) 100) 2)))
          Float64.samples = true.
Proof. vm_compute. reflexivity. Qed.

(** At the double 0.20005 the confidence is 20, not 20.01. *)
Example confidence_at_a_tie :
  confidence_score [Py.double (79995 # 100000); Py.double (20005 # 100000)]
  = Py.Ok (Py.round (Py.mul (Py.double (20005 # 100000)) 100) 2) /\
  Py.round (Py.mul (Py.double (20005 # 100000)) 100) 2 == 20.
Proof. split; reflexivity. Qed.
